(** * Odoo sales dashboard: the filter / aggregate / forecast pipeline

    A shallow embedding of [odoo_sales/app.py] (and of the filter of
    [odoo_sales/app_old.py]).  A data frame is a list of rows in frame
    order; a column is the projection of a record field.  Dates are day
    ordinals in [Z]; amounts are exact rationals in [Q] (the rounding of
    the binary floating point the libraries compute with is outside the
    model).  Library routines (pandas, numpy, scikit-learn) are given by
    their documented behaviour. *)

From Stdlib Require Import String Ascii.
From Stdlib Require Import List Bool Arith ZArith QArith Qfield Lia Lqa.
From Stdlib Require Import Permutation Sorted.
Import ListNotations.

Local Open Scope Q_scope.

(* ================================================================== *)
(** * Part I - definitions                                             *)
(* ================================================================== *)

(** ** Faults *)

Inductive exn : Type :=
| ValueError          (* scikit-learn: array with 0 samples *)
| IndexError
| ZeroDivisionError.

Inductive outcome (A : Type) : Type :=
| Returned (a : A)
| Raised (e : exn).

Arguments Returned {A} a.
Arguments Raised {A} e.

(** ** Rows of the query of [load_sales_data] *)

(** [WHERE so.state IN ('sale', 'done','draft','sent','cancel')] *)
Inductive State : Type := draft | sent | sale | done | cancel.

Record OrderLineFact : Type := mkFact {
  order_id        : Z;
  order_number    : string;
  order_date      : Z;              (* [so.date_order::date], a day ordinal *)
  state           : State;
  customer        : string;
  salesperson     : option string;  (* [LEFT JOIN res_users] *)
  product_uom_qty : Q;
  price_total     : Q;
  product         : string;
  category        : option string   (* [LEFT JOIN product_category] *)
}.

Definition DataFrame : Type := list OrderLineFact.

(** The sidebar widgets of one render. *)
Record FilterCriteria : Type := mkCriteria {
  start_date           : Z;
  end_date             : Z;
  salesperson_selected : list string;
  customer_selected    : list string;
  category_selected    : list string
}.

(** ** Series helpers *)

(** [Series.sum()]: the sum of the empty series is 0. *)
Definition sum (l : list Q) : Q := fold_right Qplus 0 l.


(** [Series.unique()]: distinct values, first occurrence kept, in order of
    appearance. *)
Fixpoint unique {A : Type} (eqb : A -> A -> bool) (l : list A) : list A :=
  match l with
  | [] => []
  | x :: t => x :: filter (fun y => negb (eqb x y)) (unique eqb t)
  end.

(** [Series.nunique()] *)
Definition nunique {A : Type} (eqb : A -> A -> bool) (l : list A) : nat :=
  length (unique eqb l).

(** [Series.isin(values)]: a null cell is a member of no selection. *)
Definition isin (cell : option string) (values : list string) : bool :=
  match cell with
  | Some s => existsb (String.eqb s) values
  | None => false
  end.

(** Truth value of a Python list: [if salesperson_selected:]. *)
Definition truthy {A : Type} (l : list A) : bool :=
  match l with [] => false | _ :: _ => true end.

(** ** Sidebar filters (app.py, lines 66-81) *)

Definition date_mask (c : FilterCriteria) (r : OrderLineFact) : bool :=
  (start_date c <=? order_date r)%Z && (order_date r <=? end_date c)%Z.

Definition filtered_df (df : DataFrame) (c : FilterCriteria) : DataFrame :=
  let filtered_df := filter (date_mask c) df in
  let filtered_df :=
    if truthy (salesperson_selected c)
    then filter (fun r => isin (salesperson r) (salesperson_selected c)) filtered_df
    else filtered_df in
  let filtered_df :=
    if truthy (customer_selected c)
    then filter (fun r => isin (Some (customer r)) (customer_selected c)) filtered_df
    else filtered_df in
  let filtered_df :=
    if truthy (category_selected c)
    then filter (fun r => isin (category r) (category_selected c)) filtered_df
    else filtered_df in
  filtered_df.

(** app_old.py, lines 92-100: the date window and the salesperson
    selection only. *)
Definition filtered_df_old (df : DataFrame) (start_date end_date : Z)
    (salesperson_sel : list string) : DataFrame :=
  let filtered_df :=
    filter (fun r => (start_date <=? order_date r)%Z && (order_date r <=? end_date)%Z) df in
  if truthy salesperson_sel
  then filter (fun r => isin (salesperson r) salesperson_sel) filtered_df
  else filtered_df.

(** The filter as the specification words it: one conjunction of the
    predicates that are active. *)
Definition passes (c : FilterCriteria) (r : OrderLineFact) : Prop :=
  (start_date c <= order_date r <= end_date c)%Z /\
  (salesperson_selected c <> [] ->
     exists s, salesperson r = Some s /\ In s (salesperson_selected c)) /\
  (customer_selected c <> [] -> In (customer r) (customer_selected c)) /\
  (category_selected c <> [] ->
     exists s, category r = Some s /\ In s (category_selected c)).

Definition passesb (c : FilterCriteria) (r : OrderLineFact) : bool :=
  date_mask c r
  && (negb (truthy (salesperson_selected c)) || isin (salesperson r) (salesperson_selected c))
  && (negb (truthy (customer_selected c)) || isin (Some (customer r)) (customer_selected c))
  && (negb (truthy (category_selected c)) || isin (category r) (category_selected c)).

(** Selection without change or reordering. *)
Inductive subseq {A : Type} : list A -> list A -> Prop :=
| subseq_nil : subseq [] []
| subseq_skip x l1 l2 : subseq l1 l2 -> subseq l1 (x :: l2)
| subseq_keep x l1 l2 : subseq l1 l2 -> subseq (x :: l1) (x :: l2).

(** ** KPI metrics (app.py, lines 92-96) *)

Definition total_sales (fdf : DataFrame) : Q := sum (map price_total fdf).

Definition total_orders (fdf : DataFrame) : nat :=
  nunique String.eqb (map order_number fdf).

(** Python's [/]. *)
Definition true_div (x : Q) (n : nat) : outcome Q :=
  if (n =? 0)%nat then Raised ZeroDivisionError
  else Returned (x / inject_Z (Z.of_nat n)).

(** [total_sales / total_orders if total_orders else 0] *)
Definition avg_order_value (fdf : DataFrame) : outcome Q :=
  if negb (total_orders fdf =? 0)%nat
  then true_div (total_sales fdf) (total_orders fdf)
  else Returned 0.

Definition total_customers (fdf : DataFrame) : nat :=
  nunique String.eqb (map customer fdf).

(** ** Grouping and sorting *)

Fixpoint insert_by {A : Type} (leb : A -> A -> bool) (x : A) (l : list A) : list A :=
  match l with
  | [] => [x]
  | y :: t => if leb x y then x :: l else y :: insert_by leb x t
  end.

(** Insertion sort; equal elements keep their order. *)
Definition insertion_sort {A : Type} (leb : A -> A -> bool) (l : list A) : list A :=
  fold_right (insert_by leb) [] l.

(** [DataFrame.groupby(by)[col].agg()] with the defaults ([sort=True]):
    one entry per distinct key, the entries in ascending key order, each
    aggregate taken over the rows of the frame that carry the key. *)
Definition groupby {K V : Type} (eqb leb : K -> K -> bool)
    (by_ : OrderLineFact -> K) (agg : DataFrame -> V) (fdf : DataFrame)
    : list (K * V) :=
  map (fun k => (k, agg (filter (fun r => eqb (by_ r) k) fdf)))
      (insertion_sort leb (unique eqb (map by_ fdf))).

(** A sorting routine, as numpy's [argsort]: it is handed the comparison
    of the sort keys and rearranges the entries. *)
Definition sorter : Type := forall A : Type, (A -> A -> bool) -> list A -> list A.

(** What the default [kind='quicksort'] promises: the result is a
    rearrangement of the input, in non-decreasing order.  It makes no
    promise about the order of entries with equal keys. *)
Definition sorts (sort : sorter) : Prop :=
  forall (A : Type) (leb : A -> A -> bool) (l : list A),
    Permutation (sort A leb l) l /\
    ((forall x y, leb x y = true \/ leb y x = true) ->
     (forall x y z, leb x y = true -> leb y z = true -> leb x z = true) ->
     StronglySorted (fun x y => leb x y = true) (sort A leb l)).

(** Two routines that keep the promise: a stable one, and one that
    reverses every run of equal keys. *)
Definition stable_sort : sorter := fun A leb l => insertion_sort leb l.

Definition antistable_sort : sorter := fun A leb l => insertion_sort leb (rev l).

Definition state_name (s : State) : string :=
  match s with
  | draft => "draft" | sent => "sent" | sale => "sale"
  | done => "done" | cancel => "cancel"
  end.

Definition State_eqb (s t : State) : bool := String.eqb (state_name s) (state_name t).
Definition State_leb (s t : State) : bool := String.leb (state_name s) (state_name t).

(** [Series.min()]; the minimum of the empty series is null. *)
Definition series_min (l : list Z) : option Z :=
  match l with [] => None | x :: t => Some (fold_left Z.min t x) end.

(** [Series.max()] *)
Definition series_max (l : list Z) : option Z :=
  match l with [] => None | x :: t => Some (fold_left Z.max t x) end.

Section Aggregator.

Variable sort : sorter.

(** [Series.sort_values(ascending=False)]: pandas reverses the values,
    sorts them in ascending order and reverses the result. *)
Definition sort_values_desc {K : Type} (s : list (K * Q)) : list (K * Q) :=
  rev (sort (K * Q)%type (fun a b => Qle_bool (snd a) (snd b)) (rev s)).

(** [groupby(key)["price_total"].sum().sort_values(ascending=False).head(10)] *)
Definition top_n (by_ : OrderLineFact -> string) (fdf : DataFrame)
    : list (string * Q) :=
  firstn 10 (sort_values_desc (groupby String.eqb String.leb by_ total_sales fdf)).

Definition top_customers (fdf : DataFrame) : list (string * Q) := top_n customer fdf.
Definition top_products (fdf : DataFrame) : list (string * Q) := top_n product fdf.

Definition stage_order : list State := [draft; sent; sale; done; cancel].

(** The code of a value in [pd.Categorical(values, categories)]: its
    position among the categories, null when it is not one of them. *)
Fixpoint categorical_code (categories : list State) (v : State) : option nat :=
  match categories with
  | [] => None
  | c :: t => if State_eqb c v then Some 0%nat
              else option_map S (categorical_code t v)
  end.

(** Order of the codes, null last. *)
Definition code_leb (a b : option nat) : bool :=
  match a, b with
  | Some i, Some j => (i <=? j)%nat
  | Some _, None => true
  | None, Some _ => false
  | None, None => true
  end.

(** app.py, lines 158-161 *)
Definition funnel_df (fdf : DataFrame) : list (State * nat) :=
  let funnel_df :=
    groupby State_eqb State_leb state (fun g => nunique Z.eqb (map order_id g)) fdf in
  sort (State * nat)%type
       (fun a b => code_leb (categorical_code stage_order (fst a))
                            (categorical_code stage_order (fst b)))
       funnel_df.

End Aggregator.

(** [(filtered_df.groupby("customer")["order_date"].min() >= start_date).sum()] *)
Definition new_customers (fdf : DataFrame) (start_date : Z) : nat :=
  length
    (filter (fun g => match snd g with
                      | Some m => (start_date <=? m)%Z
                      | None => false
                      end)
            (groupby String.eqb String.leb customer
                     (fun g => series_min (map order_date g)) fdf)).

(** The count the specification describes: the customers of the filtered
    frame none of whose rows in the whole fact set is dated before the
    start of the window. *)
Definition first_time_customers (df fdf : DataFrame) (start_date : Z) : nat :=
  length
    (filter (fun k => forallb (fun r => negb (String.eqb (customer r) k)
                                        || (start_date <=? order_date r)%Z) df)
            (unique String.eqb (map customer fdf))).

(** ** Sales forecast (app.py, lines 179-188) *)

(** [filtered_df.groupby("order_date")["price_total"].sum().reset_index()] *)
Definition daily_sales_forecast (fdf : DataFrame) : list (Z * Q) :=
  groupby Z.eqb Z.leb order_date total_sales fdf.

(** [(order_date - order_date.min()).dt.days]; the minimum is null only
    for the empty frame, which has no entry to subtract it from. *)
Definition day_number (daily : list (Z * Q)) : list Z :=
  let m := series_min (map fst daily) in
  map (fun d => match m with Some m => fst d - m | None => 0 end)%Z daily.

Definition count (l : list Q) : Q := inject_Z (Z.of_nat (length l)).

Definition mean (l : list Q) : Q := sum l / count l.

(** [sklearn.linear_model.LinearRegression] with one feature. *)
Record LinearRegression : Type := mkModel {
  intercept_ : Q;
  coef_      : Q
}.

(** [model.fit(X, y)]: an empty sample is refused; otherwise both columns
    are centred, the slope is the minimum-norm least-squares solution on
    the centred data (0 when the centred feature vanishes), and the
    intercept is [mean y - mean X * coef_].  The library computes the
    solution in binary64 through a LAPACK driver; the exact value given
    here agrees with it where no rounding occurs (an empty sample, a
    single date), and nothing is stated below of the coefficients of
    other samples. *)
Definition fit (X : list Z) (y : list Q) : outcome LinearRegression :=
  match X with
  | [] => Raised ValueError
  | _ :: _ =>
      let Xq := map inject_Z X in
      let X_offset := mean Xq in
      let y_offset := mean y in
      let Xc := map (fun x => x - X_offset) Xq in
      let yc := map (fun v => v - y_offset) y in
      let sxx := sum (map (fun x => x * x) Xc) in
      let sxy := sum (map (fun p => fst p * snd p) (combine Xc yc)) in
      let coef := if Qeq_bool sxx 0 then 0 else sxy / sxx in
      Returned {| intercept_ := y_offset - X_offset * coef; coef_ := coef |}
  end.

(** [model.predict] *)
Definition predict (model : LinearRegression) (d : Z) : Q :=
  intercept_ model + coef_ model * inject_Z d.

(** [np.arange(start, stop)] *)
Definition arange (start stop : Z) : list Z :=
  map (fun i => start + Z.of_nat i)%Z (seq 0 (Z.to_nat (stop - start))).

(** [pd.date_range(start, periods=n)] *)
Definition date_range (start : Z) (periods : nat) : list Z :=
  map (fun i => start + Z.of_nat i)%Z (seq 0 periods).

Definition bind {A B : Type} (m : outcome A) (k : A -> outcome B) : outcome B :=
  match m with Returned a => k a | Raised e => Raised e end.

Notation "x <- m ;; k" := (bind m (fun x => k))
  (at level 61, m at next level, right associativity).

(** [X[-1][0]] *)
Definition last_day (X : list Z) : outcome Z :=
  match rev X with [] => Raised IndexError | d :: _ => Returned d end.

(** [np.arange(X[-1][0]+1, X[-1][0]+31)] *)
Definition future_days (X : list Z) : outcome (list Z) :=
  d <- last_day X ;; Returned (arange (d + 1) (d + 31)).

(** Lines 179-188: the (date, forecast_sales) rows of [forecast_df]. *)
Definition forecast_df (fdf : DataFrame) : outcome (list (Z * Q)) :=
  let daily := daily_sales_forecast fdf in
  let X := day_number daily in
  let y := map snd daily in
  model <- fit X y ;;
  future <- future_days X ;;
  let forecast := map (predict model) future in
  match series_max (map fst daily) with
  | None => Raised ValueError
  | Some last_date =>
      Returned (combine (date_range (last_date + 1) 30) forecast)
  end.

(** ** Export to delimited text (app.py, line 215) *)

Definition comma : ascii := ",".
Definition dquote : ascii := "034".
Definition LF : ascii := "010".
Definition CR : ascii := "013".

(** How pandas prints the cells that are not text.  The properties
    below hold for every rendering. *)
Record Formatter : Type := mkFormatter {
  fmt_int   : Z -> string;
  fmt_date  : Z -> string;
  fmt_float : Q -> string
}.

(** [na_rep=''] *)
Definition na_rep : string := "".

Definition text_cell (v : option string) : string :=
  match v with Some s => s | None => na_rep end.

(** The columns of the frame, in the order of the SELECT list. *)
Definition columns : list string :=
  ["order_id"; "order_number"; "order_date"; "state"; "customer"; "salesperson";
   "product_uom_qty"; "price_total"; "product"; "category"]%string.

(** One row of [to_csv(index=False)]: the cells of the columns, no index
    cell. *)
Definition cells (F : Formatter) (r : OrderLineFact) : list string :=
  [fmt_int F (order_id r); order_number r; fmt_date F (order_date r);
   state_name (state r); customer r; text_cell (salesperson r);
   fmt_float F (product_uom_qty r); fmt_float F (price_total r);
   product r; text_cell (category r)].

(** The writer pandas delegates to: comma delimiter, the double
    quote as quote character, minimal quoting, quotes doubled, lines
    ended by [os.linesep], here LF.  A field is quoted when it holds the
    delimiter, the quote character or a character of the line end; a
    carriage return on its own does not force quotes. *)
Definition special (c : ascii) : bool :=
  Ascii.eqb c comma || Ascii.eqb c dquote || Ascii.eqb c LF.

Fixpoint needs_quoting (s : string) : bool :=
  match s with
  | EmptyString => false
  | String c t => special c || needs_quoting t
  end.

Fixpoint escape (s : string) : string :=
  match s with
  | EmptyString => EmptyString
  | String c t =>
      if Ascii.eqb c dquote then String dquote (String dquote (escape t))
      else String c (escape t)
  end.

Definition quoted (s : string) : string :=
  String dquote (escape s ++ String dquote EmptyString).

Definition write_field (s : string) : string :=
  if needs_quoting s then quoted s else s.

Fixpoint join_fields (fields : list string) : string :=
  match fields with
  | [] => EmptyString
  | [c] => write_field c
  | c :: t => write_field c ++ String comma (join_fields t)
  end.

(** A record that is a single empty field is written quoted. *)
Definition write_record (fields : list string) : string :=
  match fields with
  | [EmptyString] => quoted EmptyString
  | _ => join_fields fields
  end.

Definition write_line (fields : list string) : string :=
  write_record fields ++ String LF EmptyString.

Fixpoint write_lines (table : list (list string)) : string :=
  match table with
  | [] => EmptyString
  | fields :: t => write_line fields ++ write_lines t
  end.

(** [filtered_df.to_csv(index=False)] *)
Definition to_csv (F : Formatter) (fdf : DataFrame) : string :=
  write_lines (columns :: map (cells F) fdf).

(** A reader of delimited text.  It is given the characters it takes
    as line ends outside quotes. *)
Inductive ParserState : Type :=
| START_RECORD | START_FIELD | IN_FIELD | IN_QUOTED_FIELD | QUOTE_IN_QUOTED_FIELD.

Record Reader : Type := mkReader {
  rd_state  : ParserState;
  rd_field  : list ascii;          (* the open field, last character first *)
  rd_fields : list string;         (* the open record, last field first *)
  rd_table  : list (list string)   (* the closed records, last first *)
}.

Definition add_char (c : ascii) (st : ParserState) (r : Reader) : Reader :=
  mkReader st (c :: rd_field r) (rd_fields r) (rd_table r).

Definition save_field (r : Reader) : Reader :=
  mkReader START_FIELD []
           (string_of_list_ascii (rev (rd_field r)) :: rd_fields r) (rd_table r).

Definition end_record (r : Reader) : Reader :=
  mkReader START_RECORD [] []
           (rev (string_of_list_ascii (rev (rd_field r)) :: rd_fields r) :: rd_table r).

(** At the end of the text an open record is closed. *)
Definition finish (r : Reader) : list (list string) :=
  match rd_state r with
  | START_RECORD => rev (rd_table r)
  | _ => rev (rd_table (end_record r))
  end.

Section Reading.

Variable newline : ascii -> bool.

Definition step (r : Reader) (c : ascii) : Reader :=
  match rd_state r with
  | START_RECORD =>
      if newline c then r                                  (* blank line *)
      else if Ascii.eqb c comma then save_field r
      else if Ascii.eqb c dquote
           then mkReader IN_QUOTED_FIELD [] (rd_fields r) (rd_table r)
      else add_char c IN_FIELD r
  | START_FIELD =>
      if newline c then end_record r
      else if Ascii.eqb c comma then save_field r
      else if Ascii.eqb c dquote
           then mkReader IN_QUOTED_FIELD [] (rd_fields r) (rd_table r)
      else add_char c IN_FIELD r
  | IN_FIELD =>
      if newline c then end_record r
      else if Ascii.eqb c comma then save_field r
      else add_char c IN_FIELD r
  | IN_QUOTED_FIELD =>
      if Ascii.eqb c dquote
      then mkReader QUOTE_IN_QUOTED_FIELD (rd_field r) (rd_fields r) (rd_table r)
      else add_char c IN_QUOTED_FIELD r
  | QUOTE_IN_QUOTED_FIELD =>
      if Ascii.eqb c dquote then add_char c IN_QUOTED_FIELD r
      else if Ascii.eqb c comma then save_field r
      else if newline c then end_record r
      else add_char c IN_FIELD r
  end.

Fixpoint run (r : Reader) (text : string) : Reader :=
  match text with
  | EmptyString => r
  | String c rest => run (step r c) rest
  end.

Definition read_with (text : string) : list (list string) :=
  finish (run (mkReader START_RECORD [] [] []) text).

End Reading.

(** Re-parsing as the csv readers do it: outside quotes a line feed and
    a carriage return both end the record. *)
Definition is_newline (c : ascii) : bool := Ascii.eqb c LF || Ascii.eqb c CR.

Definition read_csv (text : string) : list (list string) := read_with is_newline text.

(** A reader that takes the line feed as the only line end. *)
Definition is_LF (c : ascii) : bool := Ascii.eqb c LF.

Fixpoint has_char (p : ascii -> bool) (s : string) : bool :=
  match s with
  | EmptyString => false
  | String c t => p c || has_char p t
  end.

(** The cell is written without quotes and holds a character that the
    reader takes as a line end.  For [is_newline] this is a cell with a
    carriage return and no comma, double quote or line feed. *)
Definition bare_break (newline : ascii -> bool) (cell : string) : bool :=
  negb (needs_quoting cell) && has_char newline cell.

(** The states in which the reader is about to read a field. *)
Definition start_state (st : ParserState) : Prop := st = START_RECORD \/ st = START_FIELD.

(** ** Vocabulary of the properties *)

(** [groups] is the per-key sum of [price_total]: one entry for each key
    present in the frame, holding the sum over the rows with that key. *)
Definition grouped_sums (by_ : OrderLineFact -> string) (fdf : DataFrame)
    (groups : list (string * Q)) : Prop :=
  NoDup (map fst groups) /\
  (forall k, In k (map fst groups) <-> exists r, In r fdf /\ by_ r = k) /\
  (forall k v, In (k, v) groups ->
     v = sum (map price_total (filter (fun r => String.eqb (by_ r) k) fdf))).

(** [top] is the first ten entries of some descending arrangement of
    [groups]. *)
Definition first_ten_descending (groups top : list (string * Q)) : Prop :=
  exists ranking,
    Permutation ranking groups /\
    StronglySorted (fun a b => snd b <= snd a) ranking /\
    top = firstn 10 ranking.

(** Position of the first occurrence of a key. *)
Fixpoint first_index (k : string) (keys : list string) : nat :=
  match keys with
  | [] => 0%nat
  | x :: t => if String.eqb x k then 0%nat else S (first_index k t)
  end.

(** Entries of [ranking] with equal sums come in the order in which
    their keys first occur in [keys]. *)
Definition ties_follow (keys : list string) (ranking : list (string * Q)) : Prop :=
  forall i j a b,
    (i < j)%nat ->
    nth_error ranking i = Some a -> nth_error ranking j = Some b ->
    snd a == snd b ->
    (first_index (fst a) keys < first_index (fst b) keys)%nat.

(** ** Sample rows *)

Definition fact (id : Z) (number : string) (date : Z) (st : State)
    (cust : string) (total : Q) : OrderLineFact :=
  {| order_id := id; order_number := number; order_date := date; state := st;
     customer := cust; salesperson := None; product_uom_qty := 1;
     price_total := total; product := "Desk"; category := None |}.

Definition sale_to_B : OrderLineFact := fact 1 "S00001" 100 sale "B" 5.
Definition draft_to_A : OrderLineFact := fact 2 "S00002" 101 draft "A" 5.

(** A rendering of numbers and dates, for the examples. *)
Definition sample_format : Formatter :=
  {| fmt_int := fun _ => "1"%string;
     fmt_date := fun _ => "2024-01-05"%string;
     fmt_float := fun _ => "5.0"%string |}.

(** A customer name with a carriage return in it and nothing that makes
    the writer quote it. *)
Definition cr_name_fact : OrderLineFact :=
  fact 3 "S00003" 102 sale (String "a" (String CR (String "b" EmptyString))) 5.

(** A customer name with a comma, a quote, a carriage return and a line
    feed in it. *)
Definition quoted_name_fact : OrderLineFact :=
  fact 4 "S00004" 103 sale
       (String "a" (String comma (String dquote (String CR (String LF
          (String "b" EmptyString)))))) 5.

(** Both dates lie within the span of the data, the start after the end:
    no row is in the window. *)
Definition inverted_window : FilterCriteria :=
  {| start_date := 101; end_date := 100; salesperson_selected := [];
     customer_selected := []; category_selected := [] |}.

(** Customer A ordered on day 100 and again on day 105; the window opens
    on day 103. *)
Definition returning_customer_facts : DataFrame :=
  [fact 1 "S00001" 100 sale "A" 10; fact 2 "S00002" 105 sale "A" 20].

Definition late_window : FilterCriteria :=
  {| start_date := 103; end_date := 105; salesperson_selected := [];
     customer_selected := []; category_selected := [] |}.

(** Daily sums 100 on one day and 200 on the next. *)
Definition two_day_facts : DataFrame :=
  [fact 1 "S00001" 100 sale "B" 100; fact 2 "S00002" 101 draft "A" 200].

(** The forecast is left out: nothing is raised and no forecast row is
    produced. *)
Definition forecast_omitted (o : outcome (list (Z * Q))) : Prop := o = Returned [].

(** ** The rest of the sidebar (app.py, lines 60-81) *)

(** [Series.dropna()] *)
Definition dropna {A : Type} (l : list (option A)) : list A :=
  flat_map (fun o => match o with Some x => [x] | None => [] end) l.

(** Lines 60-61; null for a frame without rows. *)
Definition min_date (df : DataFrame) : option Z := series_min (map order_date df).
Definition max_date (df : DataFrame) : option Z := series_max (map order_date df).

(** The widgets as they first render: the two date inputs default to
    [min_date] and [max_date], the three multiselects to no selection. *)
Definition default_criteria (df : DataFrame) : option FilterCriteria :=
  match min_date df, max_date df with
  | Some lo, Some hi =>
      Some {| start_date := lo; end_date := hi; salesperson_selected := [];
              customer_selected := []; category_selected := [] |}
  | _, _ => None
  end.

(** Line 66 *)
Definition date_filtered (df : DataFrame) (c : FilterCriteria) : DataFrame :=
  filter (date_mask c) df.

(** Line 68 *)
Definition salesperson_options (df : DataFrame) (c : FilterCriteria) : list string :=
  unique String.eqb (dropna (map salesperson (date_filtered df c))).

(** Lines 70-71 *)
Definition salesperson_filtered (df : DataFrame) (c : FilterCriteria) : DataFrame :=
  if truthy (salesperson_selected c)
  then filter (fun r => isin (salesperson r) (salesperson_selected c)) (date_filtered df c)
  else date_filtered df c.

(** Line 73 *)
Definition customer_options (df : DataFrame) (c : FilterCriteria) : list string :=
  unique String.eqb (map customer (salesperson_filtered df c)).

(** Lines 75-76 *)
Definition customer_filtered (df : DataFrame) (c : FilterCriteria) : DataFrame :=
  if truthy (customer_selected c)
  then filter (fun r => isin (Some (customer r)) (customer_selected c))
              (salesperson_filtered df c)
  else salesperson_filtered df c.

(** Line 78 *)
Definition category_options (df : DataFrame) (c : FilterCriteria) : list string :=
  unique String.eqb (dropna (map category (customer_filtered df c))).

(** ** The other charts and the detail table *)


(** Line 109 (and app_old.py, lines 126-131) *)
Definition daily_sales (fdf : DataFrame) : list (Z * Q) :=
  groupby Z.eqb Z.leb order_date total_sales fdf.





(** Line 197: [filtered_df.sort_values("order_date", ascending=False)] *)
Definition detail_table (sort : sorter) (fdf : DataFrame) : DataFrame :=
  rev (sort OrderLineFact (fun a b => (order_date a <=? order_date b)%Z) (rev fdf)).

(** [Series.sum()] of a column of counts. *)
Definition sum_counts (l : list nat) : nat := fold_right Nat.add 0%nat l.

(** A frame as the join of [load_sales_data] produces it: the state is a
    column of the order, so the rows of one order agree on it. *)
Definition one_state_per_order (fdf : DataFrame) : Prop :=
  forall r1 r2, In r1 fdf -> In r2 fdf ->
    order_id r1 = order_id r2 -> state r1 = state r2.

(** Eleven customers, named A to K, with sales 0 to 10. *)
Definition eleven_customer_facts : DataFrame :=
  map (fun i => fact (Z.of_nat i) "S00001" 100 sale
                     (String (ascii_of_nat (65 + i)) EmptyString)
                     (inject_Z (Z.of_nat i)))
      (seq 0 11).

(* ================================================================== *)
(** * Part II - properties                                             *)
(* ================================================================== *)

(** ** Filter *)

Lemma truthy_false_iff {A} (l : list A) : truthy l = false <-> l = [].
Proof. destruct l; simpl; split; congruence. Qed.

Lemma existsb_eqb_In (s : string) (l : list string) :
  existsb (String.eqb s) l = true <-> In s l.
Proof.
  rewrite existsb_exists. split.
  - intros [x [Hx Heq]]. apply String.eqb_eq in Heq. now subst.
  - intros H. exists s. split; [assumption | apply String.eqb_refl].
Qed.

Lemma isin_spec (cell : option string) (l : list string) :
  isin cell l = true <-> exists s, cell = Some s /\ In s l.
Proof.
  destruct cell as [s|]; simpl.
  - rewrite existsb_eqb_In. split.
    + intros H. now exists s.
    + intros [s' [E H]]. now inversion E; subst.
  - split; [discriminate | intros [s [E _]]; discriminate].
Qed.

Lemma filter_filter {A} (f g : A -> bool) (l : list A) :
  filter g (filter f l) = filter (fun x => f x && g x) l.
Proof.
  induction l as [|x l IH]; simpl; [reflexivity|].
  destruct (f x); simpl; [destruct (g x)|]; now rewrite IH.
Qed.

Lemma filter_when {A} (b : bool) (g : A -> bool) (l : list A) :
  (if b then filter g l else l) = filter (fun x => negb b || g x) l.
Proof.
  destruct b; simpl; [reflexivity|].
  induction l as [|x l IH]; simpl; congruence.
Qed.

Lemma passesb_spec (c : FilterCriteria) (r : OrderLineFact) :
  passesb c r = true <-> passes c r.
Proof.
  unfold passesb, passes, date_mask.
  rewrite !andb_true_iff, !orb_true_iff, !negb_true_iff, !truthy_false_iff.
  rewrite !Z.leb_le, !isin_spec.
  split.
  - intros [[[[H1 H2] H3] H4] H5]. repeat split; try assumption.
    + intros Hne. destruct H3 as [H3|H3]; [contradiction | exact H3].
    + intros Hne. destruct H4 as [H4|[s [E H4]]]; [contradiction|].
      now inversion E; subst.
    + intros Hne. destruct H5 as [H5|H5]; [contradiction | exact H5].
  - intros [[H1 H2] [H3 [H4 H5]]]. repeat split; try assumption.
    + destruct (salesperson_selected c); [now left | right; apply H3; discriminate].
    + destruct (customer_selected c) as [|x l] eqn:E; [now left|].
      right. exists (customer r). split; [reflexivity | apply H4; discriminate].
    + destruct (category_selected c); [now left | right; apply H5; discriminate].
Qed.

Lemma filtered_df_filter (df : DataFrame) (c : FilterCriteria) :
  filtered_df df c = filter (passesb c) df.
Proof.
  unfold filtered_df. cbv zeta.
  rewrite !filter_when, !filter_filter.
  apply filter_ext. intro r. unfold passesb. now rewrite !andb_assoc.
Qed.

(** C1. [total_sales] is the sum of [price_total] over exactly the rows of
    the fact set that pass every active predicate: the inclusive date
    window and, for each non-empty selection, membership of the row's
    (non-null) value.  The filtered frame is the input frame restricted
    to those rows - none added, none omitted. *)
Theorem total_sales_sums_passing_rows (df : DataFrame) (c : FilterCriteria) :
  (forall r, passesb c r = true <-> passes c r) /\
  filtered_df df c = filter (passesb c) df /\
  total_sales (filtered_df df c) = sum (map price_total (filter (passesb c) df)).
Proof.
  split; [intro r; apply passesb_spec|].
  split; [apply filtered_df_filter|].
  unfold total_sales. now rewrite filtered_df_filter.
Qed.

Lemma subseq_filter {A} (f : A -> bool) (l : list A) : subseq (filter f l) l.
Proof.
  induction l as [|x l IH]; simpl; [constructor|].
  destruct (f x); constructor; assumption.
Qed.

Lemma subseq_In {A} (l1 l2 : list A) (x : A) :
  subseq l1 l2 -> In x l1 -> In x l2.
Proof.
  induction 1 as [|y l1 l2 H IH|y l1 l2 H IH]; simpl; intros Hx.
  - assumption.
  - right. now apply IH.
  - destruct Hx as [Hx|Hx]; [now left | right; now apply IH].
Qed.

Lemma filtered_df_old_filter (df : DataFrame) (s e : Z) (sel : list string) :
  filtered_df_old df s e sel =
  filter (fun r => ((s <=? order_date r)%Z && (order_date r <=? e)%Z)
                   && (negb (truthy sel) || isin (salesperson r) sel)) df.
Proof.
  unfold filtered_df_old. cbv zeta.
  now rewrite filter_when, filter_filter.
Qed.

(** C10. Filtering only selects: in both variants of the dashboard the
    filtered frame is a subsequence of the input frame - every row of it
    is a row of the input, field for field, and the rows keep their
    relative order. *)
Theorem filter_selects_in_order (df : DataFrame) (c : FilterCriteria)
    (s e : Z) (sel : list string) :
  subseq (filtered_df df c) df /\
  subseq (filtered_df_old df s e sel) df /\
  (forall r, In r (filtered_df df c) -> In r df) /\
  (forall r, In r (filtered_df_old df s e sel) -> In r df).
Proof.
  assert (H1 : subseq (filtered_df df c) df)
    by (rewrite filtered_df_filter; apply subseq_filter).
  assert (H2 : subseq (filtered_df_old df s e sel) df)
    by (rewrite filtered_df_old_filter; apply subseq_filter).
  repeat split; try assumption; intros r; now apply subseq_In.
Qed.

(** ** KPI metrics *)

(** C5. [avg_order_value] is [total_sales / total_orders] when there is
    at least one order and 0 when there is none; the division is reached
    with a non-zero divisor only, so it never faults. *)
Theorem avg_order_value_guarded (fdf : DataFrame) :
  avg_order_value fdf =
    Returned (if (0 <? total_orders fdf)%nat
              then total_sales fdf / inject_Z (Z.of_nat (total_orders fdf))
              else 0) /\
  avg_order_value fdf <> Raised ZeroDivisionError.
Proof.
  unfold avg_order_value, true_div.
  destruct (total_orders fdf) as [|n]; simpl; split; congruence.
Qed.

(** ** Distinct values *)

Section Unique.

Context {A : Type} (eqb : A -> A -> bool).
Hypothesis eqb_spec : forall x y, eqb x y = true <-> x = y.

Lemma eqb_false_iff (x y : A) : eqb x y = false <-> x <> y.
Proof.
  rewrite <- eqb_spec. destruct (eqb x y); split; congruence.
Qed.

Lemma unique_In (l : list A) (x : A) : In x (unique eqb l) <-> In x l.
Proof.
  induction l as [|a l IH]; simpl; [reflexivity|].
  rewrite filter_In, IH, negb_true_iff, eqb_false_iff.
  split.
  - intros [H|[H _]]; auto.
  - intros [H|H]; [now left|].
    destruct (eqb a x) eqn:E.
    + left. now apply eqb_spec.
    + right. split; [assumption | now apply eqb_false_iff].
Qed.

Lemma unique_NoDup (l : list A) : NoDup (unique eqb l).
Proof.
  induction l as [|a l IH]; simpl; constructor.
  - rewrite filter_In, negb_true_iff, eqb_false_iff. tauto.
  - now apply NoDup_filter.
Qed.

End Unique.

(** ** Sorting *)

Section InsertionSort.

Context {A : Type} (leb : A -> A -> bool).

Lemma insert_by_perm (x : A) (l : list A) : Permutation (insert_by leb x l) (x :: l).
Proof.
  induction l as [|y l IH]; simpl; [reflexivity|].
  destruct (leb x y); [reflexivity|].
  rewrite IH. apply perm_swap.
Qed.

Lemma insertion_sort_perm (l : list A) : Permutation (insertion_sort leb l) l.
Proof.
  induction l as [|x l IH]; simpl; [reflexivity|].
  rewrite insert_by_perm. now constructor.
Qed.

Hypothesis leb_total : forall x y, leb x y = true \/ leb y x = true.
Hypothesis leb_trans : forall x y z, leb x y = true -> leb y z = true -> leb x z = true.

Lemma insert_by_sorted (x : A) (l : list A) :
  StronglySorted (fun a b => leb a b = true) l ->
  StronglySorted (fun a b => leb a b = true) (insert_by leb x l).
Proof.
  induction 1 as [|y l Hl IH Hy]; simpl.
  - repeat constructor.
  - destruct (leb x y) eqn:E.
    + constructor; [now constructor|].
      constructor; [assumption|].
      eapply Forall_impl; [|exact Hy]. intros z Hz. now apply leb_trans with y.
    + constructor; [assumption|].
      assert (Hyx : leb y x = true) by (destruct (leb_total x y); congruence).
      rewrite Forall_forall in *. intros z Hz.
      apply (Permutation_in _ (insert_by_perm x l)) in Hz.
      destruct Hz as [<-|Hz]; auto.
Qed.

Lemma insertion_sort_sorted (l : list A) :
  StronglySorted (fun a b => leb a b = true) (insertion_sort leb l).
Proof.
  induction l as [|x l IH]; simpl; [constructor | now apply insert_by_sorted].
Qed.

End InsertionSort.

Lemma stable_sort_sorts : sorts stable_sort.
Proof.
  intros A leb l. split.
  - apply insertion_sort_perm.
  - intros. now apply insertion_sort_sorted.
Qed.

Lemma antistable_sort_sorts : sorts antistable_sort.
Proof.
  intros A leb l. unfold antistable_sort. split.
  - rewrite insertion_sort_perm. symmetry. apply Permutation_rev.
  - intros. now apply insertion_sort_sorted.
Qed.

(** Among lists ordered by an order that is antisymmetric on their
    entries, a rearrangement that is ordered too is the same list. *)
Lemma sorted_perm_unique {A} (le : A -> A -> Prop) (l1 l2 : list A) :
  (forall x y, In x l1 -> In y l1 -> le x y -> le y x -> x = y) ->
  StronglySorted le l1 -> StronglySorted le l2 -> Permutation l1 l2 -> l1 = l2.
Proof.
  revert l2. induction l1 as [|x t1 IH]; intros l2 Hanti H1 H2 HP.
  - now apply Permutation_nil in HP.
  - destruct l2 as [|y t2]; [now apply Permutation_sym, Permutation_nil in HP|].
    inversion H1 as [|? ? Ht1 Hx]; subst. inversion H2 as [|? ? Ht2 Hy]; subst.
    rewrite Forall_forall in Hx, Hy.
    assert (E : x = y).
    { assert (Hxin : In x (y :: t2)) by (apply (Permutation_in _ HP); now left).
      assert (Hyin : In y (x :: t1))
        by (apply (Permutation_in _ (Permutation_sym HP)); now left).
      destruct Hxin as [->|Hxin]; [reflexivity|].
      destruct Hyin as [->|Hyin]; [reflexivity|].
      apply Hanti; simpl; auto. }
    subst y. f_equal. apply IH; try assumption.
    + intros a b Ha Hb. apply Hanti; now right.
    + now apply Permutation_cons_inv in HP.
Qed.

(** ** Grouping *)

Section GroupBy.

Context {K V : Type} (eqb leb : K -> K -> bool).
Hypothesis eqb_spec : forall x y, eqb x y = true <-> x = y.
Variable by_ : OrderLineFact -> K.
Variable agg : DataFrame -> V.

Lemma groupby_keys (fdf : DataFrame) :
  map fst (groupby eqb leb by_ agg fdf) = insertion_sort leb (unique eqb (map by_ fdf)).
Proof.
  unfold groupby. rewrite map_map. simpl. apply map_id.
Qed.

Lemma groupby_keys_perm (fdf : DataFrame) :
  Permutation (map fst (groupby eqb leb by_ agg fdf)) (unique eqb (map by_ fdf)).
Proof. rewrite groupby_keys. apply insertion_sort_perm. Qed.

Lemma groupby_keys_NoDup (fdf : DataFrame) :
  NoDup (map fst (groupby eqb leb by_ agg fdf)).
Proof.
  eapply Permutation_NoDup.
  - symmetry. apply groupby_keys_perm.
  - now apply unique_NoDup.
Qed.

Lemma groupby_keys_In (fdf : DataFrame) (k : K) :
  In k (map fst (groupby eqb leb by_ agg fdf)) <-> exists r, In r fdf /\ by_ r = k.
Proof.
  split.
  - intros H. apply (Permutation_in _ (groupby_keys_perm fdf)) in H.
    apply (proj1 (unique_In eqb eqb_spec _ _)) in H. apply in_map_iff in H.
    destruct H as [r [E H]]. now exists r.
  - intros [r [H E]].
    apply (Permutation_in _ (Permutation_sym (groupby_keys_perm fdf))).
    apply (proj2 (unique_In eqb eqb_spec _ _)). apply in_map_iff. now exists r.
Qed.

Lemma groupby_entry (fdf : DataFrame) (k : K) (v : V) :
  In (k, v) (groupby eqb leb by_ agg fdf) ->
  v = agg (filter (fun r => eqb (by_ r) k) fdf).
Proof.
  unfold groupby. rewrite in_map_iff. intros [k' [E _]]. now inversion E.
Qed.

Lemma groupby_length (fdf : DataFrame) :
  length (groupby eqb leb by_ agg fdf) = nunique eqb (map by_ fdf).
Proof.
  unfold groupby, nunique. rewrite length_map.
  apply Permutation_length, insertion_sort_perm.
Qed.

End GroupBy.

Lemma groupby_grouped_sums (by_ : OrderLineFact -> string) (fdf : DataFrame) :
  grouped_sums by_ fdf (groupby String.eqb String.leb by_ total_sales fdf).
Proof.
  split; [|split].
  - apply groupby_keys_NoDup, String.eqb_eq.
  - intro k. apply groupby_keys_In, String.eqb_eq.
  - intros k v H. now apply groupby_entry in H.
Qed.

(** ** Rankings *)

Lemma StronglySorted_app_one {A} (R : A -> A -> Prop) (l : list A) (x : A) :
  StronglySorted R l -> Forall (fun y => R y x) l -> StronglySorted R (l ++ [x]).
Proof.
  induction 1 as [|y l Hl IH Hy]; simpl; intros HF.
  - repeat constructor.
  - inversion HF; subst. constructor; [now apply IH|].
    apply Forall_app. split; [assumption | now repeat constructor].
Qed.

Lemma StronglySorted_rev {A} (R : A -> A -> Prop) (l : list A) :
  StronglySorted R l -> StronglySorted (fun a b => R b a) (rev l).
Proof.
  induction 1 as [|x l Hl IH Hx]; simpl; [constructor|].
  apply StronglySorted_app_one; [assumption|].
  rewrite Forall_forall in *. intros y Hy. apply Hx. now apply in_rev.
Qed.

Lemma Qle_bool_total (x y : Q) : Qle_bool x y = true \/ Qle_bool y x = true.
Proof.
  rewrite !Qle_bool_iff. destruct (Qlt_le_dec x y) as [H|H]; [left|right]; auto.
  now apply Qlt_le_weak.
Qed.

Lemma Qle_bool_trans (x y z : Q) :
  Qle_bool x y = true -> Qle_bool y z = true -> Qle_bool x z = true.
Proof. rewrite !Qle_bool_iff. apply Qle_trans. Qed.

Section Rankings.

Variable sort : sorter.
Hypothesis sort_ok : sorts sort.

Lemma sort_values_desc_perm {K} (s : list (K * Q)) :
  Permutation (sort_values_desc sort s) s.
Proof.
  unfold sort_values_desc.
  rewrite <- Permutation_rev, (proj1 (sort_ok _ _ _)).
  symmetry. apply Permutation_rev.
Qed.

Lemma sort_values_desc_sorted {K} (s : list (K * Q)) :
  StronglySorted (fun a b => snd b <= snd a) (sort_values_desc sort s).
Proof.
  unfold sort_values_desc.
  eapply StronglySorted_rev with (R := fun a b : K * Q => snd a <= snd b).
  assert (H : StronglySorted (fun a b : K * Q => Qle_bool (snd a) (snd b) = true)
                (sort (K * Q)%type (fun a b => Qle_bool (snd a) (snd b)) (rev s))).
  { apply (proj2 (sort_ok _ _ _)).
    - intros x y. apply Qle_bool_total.
    - intros x y z. apply Qle_bool_trans. }
  clear -H. induction H as [|x l Hl IH Hx]; constructor; [assumption|].
  eapply Forall_impl; [|exact Hx]. intros a Ha. now apply Qle_bool_iff.
Qed.

Lemma top_n_ranking (by_ : OrderLineFact -> string) (fdf : DataFrame) :
  first_ten_descending (groupby String.eqb String.leb by_ total_sales fdf)
                       (top_n sort by_ fdf).
Proof.
  exists (sort_values_desc sort (groupby String.eqb String.leb by_ total_sales fdf)).
  split; [apply sort_values_desc_perm|].
  split; [apply sort_values_desc_sorted | reflexivity].
Qed.

End Rankings.

(** C7 (as the code has it). With any sorting routine that keeps the
    promise of the default sort, each top-10 ranking (customers, products)
    groups the rows by its key, sums [price_total] per group, and is the
    first ten entries of a descending arrangement of the groups.  Which
    of several groups with equal sums comes first is left to the
    routine. *)
Theorem top_rankings_descending (sort : sorter) (sort_ok : sorts sort)
    (fdf : DataFrame) :
  (exists groups, grouped_sums customer fdf groups /\
                  first_ten_descending groups (top_customers sort fdf)) /\
  (exists groups, grouped_sums product fdf groups /\
                  first_ten_descending groups (top_products sort fdf)).
Proof.
  split.
  - exists (groupby String.eqb String.leb customer total_sales fdf).
    split; [apply groupby_grouped_sums | now apply top_n_ranking].
  - exists (groupby String.eqb String.leb product total_sales fdf).
    split; [apply groupby_grouped_sums | now apply top_n_ranking].
Qed.

Lemma top_rankings_descending_witness :
  sorts stable_sort /\
  (exists groups, grouped_sums customer [sale_to_B; draft_to_A] groups /\
     first_ten_descending groups (top_customers stable_sort [sale_to_B; draft_to_A])) /\
  (exists groups, grouped_sums product [sale_to_B; draft_to_A] groups /\
     first_ten_descending groups (top_products stable_sort [sale_to_B; draft_to_A])).
Proof.
  split; [exact stable_sort_sorts|].
  exact (top_rankings_descending stable_sort stable_sort_sorts [sale_to_B; draft_to_A]).
Defined.

(** C7 as stated fails.  The groups are formed in ascending key order, so
    even a stable sort lists tied groups by key, not by first appearance
    in the rows; and a routine within the promise of the default sort may
    reverse tied groups altogether. *)
Lemma top_ranking_ties_counterexample :
  (sorts stable_sort /\
   top_customers stable_sort [sale_to_B; draft_to_A] = [("A"%string, 5); ("B"%string, 5)] /\
   ~ ties_follow (map customer [sale_to_B; draft_to_A])
                 (top_customers stable_sort [sale_to_B; draft_to_A])) /\
  (sorts antistable_sort /\
   top_customers antistable_sort [draft_to_A; sale_to_B] = [("B"%string, 5); ("A"%string, 5)] /\
   ~ ties_follow (map customer [draft_to_A; sale_to_B])
                 (top_customers antistable_sort [draft_to_A; sale_to_B]) /\
   ~ ties_follow (map fst (groupby String.eqb String.leb customer total_sales
                                   [draft_to_A; sale_to_B]))
                 (top_customers antistable_sort [draft_to_A; sale_to_B])).
Proof.
  split.
  - split; [exact stable_sort_sorts|]. split; [reflexivity|].
    intros H.
    specialize (H 0%nat 1%nat ("A"%string, 5) ("B"%string, 5)).
    vm_compute in H. specialize (H (le_n 1) eq_refl eq_refl eq_refl).
    inversion H.
  - split; [exact antistable_sort_sorts|]. split; [reflexivity|].
    split; intros H;
      specialize (H 0%nat 1%nat ("B"%string, 5) ("A"%string, 5));
      vm_compute in H; specialize (H (le_n 1) eq_refl eq_refl eq_refl);
      inversion H.
Qed.

(** ** Funnel *)

Lemma State_eqb_spec (s t : State) : State_eqb s t = true <-> s = t.
Proof. destruct s, t; vm_compute; split; congruence. Qed.

Lemma code_leb_total (a b : option nat) : code_leb a b = true \/ code_leb b a = true.
Proof.
  destruct a as [i|], b as [j|]; simpl; auto.
  rewrite !Nat.leb_le. lia.
Qed.

Lemma code_leb_trans (a b c : option nat) :
  code_leb a b = true -> code_leb b c = true -> code_leb a c = true.
Proof.
  destruct a as [i|], b as [j|], c as [k|]; simpl; auto; try discriminate.
  rewrite !Nat.leb_le. lia.
Qed.

Lemma stage_code_antisym (s t : State) :
  code_leb (categorical_code stage_order s) (categorical_code stage_order t) = true ->
  code_leb (categorical_code stage_order t) (categorical_code stage_order s) = true ->
  s = t.
Proof. destruct s, t; vm_compute; congruence. Qed.

Lemma stage_order_complete (s : State) : In s stage_order.
Proof. destruct s; simpl; tauto. Qed.

Lemma stage_order_NoDup : NoDup stage_order.
Proof.
  unfold stage_order.
  repeat (constructor; [simpl; intuition discriminate|]). constructor.
Qed.

(** Every selection of stages, taken in stage order, is ordered by code. *)
Lemma stage_selection_sorted {V} (p : State -> bool) (f : State -> V) :
  StronglySorted
    (fun a b : State * V => code_leb (categorical_code stage_order (fst a))
                                      (categorical_code stage_order (fst b)) = true)
    (map (fun s => (s, f s)) (filter p stage_order)).
Proof.
  unfold stage_order. simpl.
  destruct (p draft), (p sent), (p sale), (p done), (p cancel); simpl;
    repeat (constructor; try reflexivity).
Qed.

(** C8. The funnel counts the distinct [order_id] of each state and lists
    the states that occur in the frame, and only those, in the sequence
    draft, sent, sale, done, cancel - whatever the order of the rows and
    whichever (correct) sorting routine is used.  A frame whose states
    are exactly sale and draft gives draft first, then sale. *)
Theorem funnel_in_stage_order (sort : sorter) (sort_ok : sorts sort)
    (fdf : DataFrame) :
  funnel_df sort fdf =
    map (fun s => (s, nunique Z.eqb
                        (map order_id (filter (fun r => State_eqb (state r) s) fdf))))
        (filter (fun s => existsb (fun r => State_eqb (state r) s) fdf) stage_order) /\
  ((forall s, In s (map state fdf) <-> s = sale \/ s = draft) ->
   map fst (funnel_df sort fdf) = [draft; sale]).
Proof.
  set (cnt := fun s => nunique Z.eqb
                 (map order_id (filter (fun r => State_eqb (state r) s) fdf))).
  set (present := fun s => existsb (fun r => State_eqb (state r) s) fdf).
  assert (Hpresent : forall s, present s = true <-> In s (map state fdf)).
  { intro s. unfold present. rewrite existsb_exists, in_map_iff.
    split; intros [r [H1 H2]]; exists r.
    - apply State_eqb_spec in H2. tauto.
    - split; [tauto | apply State_eqb_spec; tauto]. }
  assert (Hmain : funnel_df sort fdf =
                  map (fun s => (s, cnt s)) (filter present stage_order)).
  { unfold funnel_df. cbv zeta.
    set (G := groupby State_eqb State_leb state
                (fun g => nunique Z.eqb (map order_id g)) fdf).
    set (le := fun a b : State * nat =>
                 code_leb (categorical_code stage_order (fst a))
                          (categorical_code stage_order (fst b))).
    destruct (sort_ok _ le G) as [HP HS].
    symmetry.
    apply sorted_perm_unique with (le := fun a b => le a b = true).
    - intros x y Hx Hy Hxy Hyx.
      apply in_map_iff in Hx. destruct Hx as [s [<- _]].
      apply in_map_iff in Hy. destruct Hy as [t [<- _]].
      unfold le in Hxy, Hyx. simpl in Hxy, Hyx.
      now rewrite (stage_code_antisym s t Hxy Hyx).
    - apply stage_selection_sorted.
    - apply HS.
      + intros x y. apply code_leb_total.
      + intros x y z. apply code_leb_trans.
    - rewrite HP. unfold G, groupby. apply Permutation_map.
      apply NoDup_Permutation.
      + apply NoDup_filter, stage_order_NoDup.
      + eapply Permutation_NoDup;
          [symmetry; apply insertion_sort_perm | apply unique_NoDup, State_eqb_spec].
      + intro s. rewrite filter_In, Hpresent.
        rewrite <- (unique_In _ State_eqb_spec (map state fdf) s).
        pose proof (stage_order_complete s) as Hc.
        pose proof (insertion_sort_perm State_leb (unique State_eqb (map state fdf))) as Hp.
        split.
        * intros [_ H]. now apply (Permutation_in _ (Permutation_sym Hp)).
        * intros H. split; [exact Hc | now apply (Permutation_in _ Hp)]. }
  split; [exact Hmain|].
  intros Hstates. rewrite Hmain, map_map. simpl. rewrite map_id.
  assert (Hd : present draft = true) by (apply Hpresent, Hstates; auto).
  assert (Hs : present sale = true) by (apply Hpresent, Hstates; auto).
  assert (Hno : forall s, s <> sale -> s <> draft -> present s = false).
  { intros s H1 H2. destruct (present s) eqn:E; [|reflexivity].
    apply Hpresent, Hstates in E. tauto. }
  unfold stage_order. simpl.
  rewrite Hd, Hs, !Hno by discriminate. reflexivity.
Qed.

Lemma funnel_in_stage_order_witness :
  sorts stable_sort /\
  funnel_df stable_sort [sale_to_B; draft_to_A] = [(draft, 1%nat); (sale, 1%nat)] /\
  map fst (funnel_df stable_sort [sale_to_B; draft_to_A]) = [draft; sale].
Proof.
  split; [exact stable_sort_sorts|].
  destruct (funnel_in_stage_order stable_sort stable_sort_sorts
              [sale_to_B; draft_to_A]) as [H1 H2].
  split.
  - rewrite H1. reflexivity.
  - apply H2. intro s. simpl. destruct s; intuition discriminate.
Defined.

(** ** New customers *)

Lemma fold_min_lower_bound (t : list Z) (x lo : Z) :
  (lo <= x)%Z -> Forall (fun d => lo <= d)%Z t -> (lo <= fold_left Z.min t x)%Z.
Proof.
  revert x. induction t as [|y t IH]; simpl; intros x Hx Ht; [assumption|].
  inversion Ht; subst. apply IH; [lia | assumption].
Qed.

Lemma filter_all {A} (f : A -> bool) (l : list A) :
  Forall (fun x => f x = true) l -> filter f l = l.
Proof.
  induction 1 as [|x l Hx Hl IH]; simpl; [reflexivity|].
  now rewrite Hx, IH.
Qed.

(** On a frame all of whose rows are dated on or after [start], the
    comparison of line 96 holds for every customer. *)
Lemma new_customers_is_total_customers (fdf : DataFrame) (start : Z) :
  (forall r, In r fdf -> (start <= order_date r)%Z) ->
  new_customers fdf start = total_customers fdf.
Proof.
  intros Hdates. unfold new_customers, total_customers.
  rewrite filter_all; [apply groupby_length|].
  apply Forall_forall. intros [k v] Hkv. simpl.
  assert (Hk : exists r, In r fdf /\ customer r = k).
  { apply (groupby_keys_In String.eqb String.leb String.eqb_eq customer
             (fun g => series_min (map order_date g))).
    apply in_map_iff. now exists (k, v). }
  apply groupby_entry in Hkv. subst v.
  destruct Hk as [r [Hr Hrk]].
  assert (Hin : In r (filter (fun r => String.eqb (customer r) k) fdf))
    by (apply filter_In; split; [assumption | now apply String.eqb_eq]).
  assert (Hall : Forall (fun d => start <= d)%Z
                   (map order_date (filter (fun r => String.eqb (customer r) k) fdf))).
  { apply Forall_forall. intros d Hd. apply in_map_iff in Hd.
    destruct Hd as [r' [<- Hr']]. apply filter_In in Hr'. now apply Hdates. }
  destruct (map order_date (filter (fun r => String.eqb (customer r) k) fdf))
    as [|d t] eqn:E.
  - apply (in_map order_date) in Hin. rewrite E in Hin. destruct Hin.
  - simpl. apply Z.leb_le. inversion Hall; subst. now apply fold_min_lower_bound.
Qed.

Lemma filtered_df_in_window (df : DataFrame) (c : FilterCriteria) (r : OrderLineFact) :
  In r (filtered_df df c) -> (start_date c <= order_date r <= end_date c)%Z.
Proof.
  rewrite filtered_df_filter, filter_In. intros [_ H].
  apply passesb_spec in H. apply H.
Qed.

(** C6 (the code departs from it). [new_customers] takes each customer's
    earliest date over the rows of the filtered frame, which all lie in
    the window, so it counts every customer of the filtered frame.  With
    customer A ordering on day 100 and on day 105 and a window opening on
    day 103 it reports 1 new customer, where no customer is without an
    order before the window start. *)
Theorem new_customers_counts_every_customer :
  (forall df c,
     new_customers (filtered_df df c) (start_date c) = total_customers (filtered_df df c)) /\
  new_customers (filtered_df returning_customer_facts late_window)
                (start_date late_window) = 1%nat /\
  first_time_customers returning_customer_facts
                       (filtered_df returning_customer_facts late_window)
                       (start_date late_window) = 0%nat.
Proof.
  split; [|split; reflexivity].
  intros df c. apply new_customers_is_total_customers.
  intros r Hr. now apply filtered_df_in_window in Hr.
Qed.

(** ** The empty frame *)

(** C2 (the code departs from it). When the filters leave no row, the
    KPIs are 0 and the rankings, the funnel and the daily sums are empty,
    but the forecast does not degrade: fitting the regression on an empty
    sample raises. *)
Theorem empty_frame_forecast_raises :
  filtered_df [sale_to_B; draft_to_A] inverted_window = [] /\
  total_sales [] = 0 /\
  total_orders [] = 0%nat /\
  avg_order_value [] = Returned 0 /\
  total_customers [] = 0%nat /\
  (forall start, new_customers [] start = 0%nat) /\
  top_customers stable_sort [] = [] /\
  top_products stable_sort [] = [] /\
  funnel_df stable_sort [] = [] /\
  daily_sales_forecast [] = [] /\
  forecast_df (filtered_df [sale_to_B; draft_to_A] inverted_window) = Raised ValueError.
Proof. repeat split. Qed.

(** ** Sums *)


Lemma combine_map_same {A B C} (g : A -> B) (h : A -> C) (l : list A) :
  combine (map g l) (map h l) = map (fun p => (g p, h p)) l.
Proof. induction l; simpl; congruence. Qed.

(** ** Forecast *)

Lemma fold_min_spec (t : list Z) (x : Z) :
  In (fold_left Z.min t x) (x :: t) /\
  forall d, In d (x :: t) -> (fold_left Z.min t x <= d)%Z.
Proof.
  revert x. induction t as [|y t IH]; intros x; simpl.
  - split; [now left | intros d [<-|[]]; lia].
  - destruct (IH (Z.min x y)) as [Hin Hle]. split.
    + destruct Hin as [E|Hin]; [|now right; right].
      rewrite <- E. destruct (Z.min_spec x y) as [[_ ->]|[_ ->]]; auto.
    + intros d Hd.
      assert (Hm : (fold_left Z.min t (Z.min x y) <= Z.min x y)%Z)
        by (apply Hle; now left).
      destruct Hd as [<-|[<-|Hd]]; [lia | lia | apply Hle; now right].
Qed.

Lemma fold_max_spec (t : list Z) (x : Z) :
  In (fold_left Z.max t x) (x :: t) /\
  forall d, In d (x :: t) -> (d <= fold_left Z.max t x)%Z.
Proof.
  revert x. induction t as [|y t IH]; intros x; simpl.
  - split; [now left | intros d [<-|[]]; lia].
  - destruct (IH (Z.max x y)) as [Hin Hle]. split.
    + destruct Hin as [E|Hin]; [|now right; right].
      rewrite <- E. destruct (Z.max_spec x y) as [[_ ->]|[_ ->]]; auto.
    + intros d Hd.
      assert (Hm : (Z.max x y <= fold_left Z.max t (Z.max x y))%Z)
        by (apply Hle; now left).
      destruct Hd as [<-|[<-|Hd]]; [lia | lia | apply Hle; now right].
Qed.

Lemma series_min_spec (l : list Z) :
  l <> [] ->
  exists m, series_min l = Some m /\ In m l /\ forall d, In d l -> (m <= d)%Z.
Proof.
  destruct l as [|x t]; [contradiction|]. intros _.
  exists (fold_left Z.min t x). split; [reflexivity | apply fold_min_spec].
Qed.

Lemma series_max_spec (l : list Z) :
  l <> [] ->
  exists M, series_max l = Some M /\ In M l /\ forall d, In d l -> (d <= M)%Z.
Proof.
  destruct l as [|x t]; [contradiction|]. intros _.
  exists (fold_left Z.max t x). split; [reflexivity | apply fold_max_spec].
Qed.

Lemma Zleb_total (x y : Z) : (x <=? y)%Z = true \/ (y <=? x)%Z = true.
Proof. rewrite !Z.leb_le. lia. Qed.

Lemma Zleb_trans (x y z : Z) :
  (x <=? y)%Z = true -> (y <=? z)%Z = true -> (x <=? z)%Z = true.
Proof. rewrite !Z.leb_le. lia. Qed.

(** The last entry of an ascending list is its greatest. *)
Lemma ascending_last (l : list Z) :
  StronglySorted (fun a b => (a <=? b)%Z = true) l -> l <> [] ->
  exists z rest, rev l = z :: rest /\ In z l /\ forall d, In d l -> (d <= z)%Z.
Proof.
  intros HS Hne. apply StronglySorted_rev in HS.
  destruct (rev l) as [|z rest] eqn:E.
  - exfalso. apply Hne. rewrite <- (rev_involutive l), E. reflexivity.
  - exists z, rest. split; [reflexivity|].
    assert (Hz : In z l) by (apply in_rev; rewrite E; now left).
    split; [assumption|]. intros d Hd.
    apply in_rev in Hd. rewrite E in Hd.
    inversion HS as [|? ? _ Hall]; subst. rewrite Forall_forall in Hall.
    destruct Hd as [<-|Hd]; [lia|]. apply Z.leb_le. now apply Hall.
Qed.

Lemma fit_returns (X : list Z) (y : list Q) :
  X <> [] -> exists model, fit X y = Returned model.
Proof. destruct X; [contradiction|]. intros _. eexists. reflexivity. Qed.

Lemma daily_dates (fdf : DataFrame) :
  map fst (daily_sales_forecast fdf) =
  insertion_sort Z.leb (unique Z.eqb (map order_date fdf)).
Proof. apply groupby_keys. Qed.

Lemma arange_30 (a : Z) :
  arange (a + 1) (a + 31) = map (fun i => a + 1 + Z.of_nat i)%Z (seq 0 30).
Proof.
  unfold arange. replace (a + 31 - (a + 1))%Z with 30%Z by lia. reflexivity.
Qed.

Lemma fit_single (s : Q) :
  fit [0%Z] [s] =
    Returned {| intercept_ := mean [s] - mean [inject_Z 0] * 0; coef_ := 0 |}.
Proof. reflexivity. Qed.

Lemma unique_singleton (l : list Z) (d : Z) :
  unique Z.eqb l = [d] -> forall x, In x l -> x = d.
Proof.
  intros E x Hx. apply (unique_In Z.eqb Z.eqb_eq) in Hx.
  rewrite E in Hx. destruct Hx as [<-|[]]. reflexivity.
Qed.

(** C4 (as the code has it). A frame with exactly one distinct order date
    is forecast like any other: the fit succeeds with slope 0 and the
    day's sum as intercept, and 30 rows are produced, one for each of the
    30 dates after that date, each forecasting the day's sum. *)
Theorem forecast_single_date_is_flat (fdf : DataFrame) :
  nunique Z.eqb (map order_date fdf) = 1%nat ->
  exists d model,
    (forall r, In r fdf -> order_date r = d) /\
    fit (day_number (daily_sales_forecast fdf)) (map snd (daily_sales_forecast fdf))
      = Returned model /\
    coef_ model == 0 /\
    intercept_ model == total_sales fdf /\
    (forall i, predict model i == total_sales fdf) /\
    forecast_df fdf =
      Returned (combine (map (fun i => d + 1 + Z.of_nat i)%Z (seq 0 30))
                        (map (fun i => predict model (1 + Z.of_nat i)) (seq 0 30))).
Proof.
  unfold nunique. intros Hone.
  destruct (unique Z.eqb (map order_date fdf)) as [|d [|d' t]] eqn:Eu;
    try discriminate.
  assert (Hall : forall r, In r fdf -> order_date r = d).
  { intros r Hr. apply (unique_singleton _ _ Eu). now apply in_map. }
  assert (Hdaily : daily_sales_forecast fdf = [(d, total_sales fdf)]).
  { unfold daily_sales_forecast, groupby. rewrite Eu. simpl. f_equal. f_equal.
    f_equal. apply filter_all. apply Forall_forall. intros r Hr.
    apply Z.eqb_eq. now apply Hall. }
  exists d, {| intercept_ := mean [total_sales fdf] - mean [inject_Z 0] * 0; coef_ := 0 |}.
  assert (HX : day_number (daily_sales_forecast fdf) = [0%Z]).
  { rewrite Hdaily. unfold day_number. simpl. now rewrite Z.sub_diag. }
  assert (Hi : mean [total_sales fdf] - mean [inject_Z 0] * 0 == total_sales fdf).
  { unfold mean, count, sum. simpl. field. }
  split; [exact Hall|].
  split; [rewrite HX, Hdaily; apply fit_single|].
  split; [reflexivity|].
  split; [exact Hi|].
  split.
  { intro i. unfold predict. cbn [intercept_ coef_]. rewrite Hi. ring. }
  unfold forecast_df. cbv zeta. rewrite HX, Hdaily.
  cbn [map snd fst]. rewrite fit_single. cbn [bind].
  unfold future_days, last_day. cbn [rev app bind].
  rewrite (arange_30 0). unfold series_max, fold_left, date_range.
  now rewrite map_map.
Qed.

Lemma forecast_single_date_is_flat_witness :
  nunique Z.eqb (map order_date [sale_to_B]) = 1%nat /\
  exists rows, forecast_df [sale_to_B] = Returned rows /\ length rows = 30%nat.
Proof.
  assert (H : nunique Z.eqb (map order_date [sale_to_B]) = 1%nat) by reflexivity.
  split; [exact H|].
  destruct (forecast_single_date_is_flat [sale_to_B] H)
    as [d [model [_ [_ [_ [_ [_ Hfc]]]]]]].
  eexists. split; [exact Hfc|].
  rewrite length_combine, !length_map, length_seq. reflexivity.
Defined.

(** C4 as stated fails: a frame with a single order date is not reported
    as insufficient; its forecast is produced, 30 rows long. *)
Lemma forecast_single_date_counterexample :
  (nunique Z.eqb (map order_date [sale_to_B]) < 2)%nat /\
  ~ forecast_omitted (forecast_df [sale_to_B]) /\
  exists rows, forecast_df [sale_to_B] = Returned rows /\ length rows = 30%nat.
Proof.
  split; [vm_compute; apply le_n|].
  split; [unfold forecast_omitted; vm_compute; discriminate|].
  eexists. split; [vm_compute; reflexivity | reflexivity].
Qed.

(** ** Export *)

Lemma special_false (c : ascii) :
  special c = false ->
  Ascii.eqb c comma = false /\ Ascii.eqb c dquote = false /\ Ascii.eqb c LF = false.
Proof.
  unfold special. intros H.
  apply orb_false_iff in H. destruct H as [H HLF].
  apply orb_false_iff in H. destruct H as [Hc Hq]. auto.
Qed.

Lemma needs_quoting_cons (c : ascii) (s : string) :
  needs_quoting (String c s) = false -> special c = false /\ needs_quoting s = false.
Proof. simpl. apply orb_false_iff. Qed.

Lemma has_char_cons (p : ascii -> bool) (c : ascii) (s : string) :
  has_char p (String c s) = false -> p c = false /\ has_char p s = false.
Proof. simpl. apply orb_false_iff. Qed.

Lemma text_of_rev_rev (s : string) :
  string_of_list_ascii (rev (rev (list_ascii_of_string s) ++ [])) = s.
Proof.
  rewrite app_nil_r, rev_involutive. apply string_of_list_ascii_of_string.
Qed.

Lemma append_assoc (a b c : string) : ((a ++ b) ++ c)%string = (a ++ (b ++ c))%string.
Proof. induction a as [|x a IH]; simpl; congruence. Qed.

Lemma write_field_empty (c : string) : write_field c = EmptyString -> c = EmptyString.
Proof.
  unfold write_field. destruct (needs_quoting c); [discriminate | auto].
Qed.

Lemma bare_break_false (newline : ascii -> bool) (c : string) :
  bare_break newline c = false -> needs_quoting c = false -> has_char newline c = false.
Proof. unfold bare_break. intros H E. rewrite E in H. exact H. Qed.

(** Reading back what the writer wrote, for a reader whose line ends
    include the line feed and exclude the comma and the double quote. *)
Section ReadBack.

Variable newline : ascii -> bool.
Hypothesis newline_LF : newline LF = true.
Hypothesis newline_comma : newline comma = false.
Hypothesis newline_dquote : newline dquote = false.

Lemma run_app (r : Reader) (s1 s2 : string) :
  run newline r (s1 ++ s2) = run newline (run newline r s1) s2.
Proof. revert r. induction s1 as [|c s1 IH]; intros r; simpl; auto. Qed.

Section Field.

Variables (R : list string) (T : list (list string)).

Lemma run_plain (s : string) (f : list ascii) :
  needs_quoting s = false -> has_char newline s = false ->
  run newline (mkReader IN_FIELD f R T) s =
  mkReader IN_FIELD (rev (list_ascii_of_string s) ++ f) R T.
Proof.
  revert f. induction s as [|c s IH]; intros f H Hb; [reflexivity|].
  apply needs_quoting_cons in H. destruct H as [Hc Hs].
  apply special_false in Hc. destruct Hc as [Hcm [Hq _]].
  apply has_char_cons in Hb. destruct Hb as [Hn Hbs].
  cbn [run]. unfold step. cbn [rd_state]. rewrite Hn, Hcm.
  unfold add_char. cbn [rd_field rd_fields rd_table].
  rewrite (IH _ Hs Hbs). cbn [list_ascii_of_string rev]. now rewrite <- app_assoc.
Qed.

Lemma run_plain_start (st : ParserState) (c : ascii) (s : string) :
  start_state st ->
  needs_quoting (String c s) = false -> has_char newline (String c s) = false ->
  run newline (mkReader st [] R T) (String c s) =
  mkReader IN_FIELD (rev (list_ascii_of_string (String c s)) ++ []) R T.
Proof.
  intros Hst H Hb.
  apply needs_quoting_cons in H. destruct H as [Hc Hs].
  apply special_false in Hc. destruct Hc as [Hcm [Hq _]].
  apply has_char_cons in Hb. destruct Hb as [Hn Hbs].
  cbn [run]. unfold step. cbn [rd_state].
  destruct Hst as [-> | ->]; rewrite Hn, Hcm, Hq;
    unfold add_char; cbn [rd_field rd_fields rd_table];
    rewrite (run_plain _ _ Hs Hbs); cbn [list_ascii_of_string rev];
    now rewrite <- !app_assoc.
Qed.

Lemma run_escape (s : string) (f : list ascii) :
  run newline (mkReader IN_QUOTED_FIELD f R T) (escape s) =
  mkReader IN_QUOTED_FIELD (rev (list_ascii_of_string s) ++ f) R T.
Proof.
  revert f. induction s as [|c s IH]; intros f; [reflexivity|].
  cbn [escape]. destruct (Ascii.eqb c dquote) eqn:E.
  - apply Ascii.eqb_eq in E. subst c.
    cbn [run]. unfold step at 2. cbn [rd_state].
    rewrite Ascii.eqb_refl. unfold step. cbn [rd_state rd_field rd_fields rd_table].
    rewrite Ascii.eqb_refl. unfold add_char. cbn [rd_field rd_fields rd_table].
    rewrite IH. cbn [list_ascii_of_string rev]. now rewrite <- app_assoc.
  - cbn [run]. unfold step. cbn [rd_state]. rewrite E.
    unfold add_char. cbn [rd_field rd_fields rd_table].
    rewrite IH. cbn [list_ascii_of_string rev]. now rewrite <- app_assoc.
Qed.

Lemma run_quoted (st : ParserState) (s : string) :
  start_state st ->
  run newline (mkReader st [] R T) (quoted s) =
  mkReader QUOTE_IN_QUOTED_FIELD (rev (list_ascii_of_string s) ++ []) R T.
Proof.
  intros Hst. unfold quoted. cbn [run].
  assert (E : step newline (mkReader st [] R T) dquote = mkReader IN_QUOTED_FIELD [] R T).
  { unfold step. cbn [rd_state].
    destruct Hst as [-> | ->]; rewrite newline_dquote; reflexivity. }
  rewrite E, run_app, run_escape. cbn [run]. unfold step. cbn [rd_state].
  now rewrite Ascii.eqb_refl.
Qed.

(** A written field followed by a comma is read back as that field. *)
Lemma read_field_comma (st : ParserState) (c rest : string) :
  start_state st -> bare_break newline c = false ->
  run newline (mkReader st [] R T) (write_field c ++ String comma rest) =
  run newline (mkReader START_FIELD [] (c :: R) T) rest.
Proof.
  intros Hst Hbare. rewrite run_app. unfold write_field.
  destruct (needs_quoting c) eqn:Hq.
  - rewrite (run_quoted _ _ Hst). cbn [run]. unfold step. cbn [rd_state].
    change (Ascii.eqb comma dquote) with false. change (Ascii.eqb comma comma) with true.
    cbv iota. unfold save_field. cbn [rd_field rd_fields rd_table].
    now rewrite text_of_rev_rev.
  - pose proof (bare_break_false _ _ Hbare Hq) as Hb.
    destruct c as [|a c].
    + cbn [run]. unfold step. cbn [rd_state].
      destruct Hst as [-> | ->]; rewrite newline_comma; reflexivity.
    + rewrite (run_plain_start _ _ _ Hst Hq Hb). cbn [run]. unfold step. cbn [rd_state].
      rewrite newline_comma. change (Ascii.eqb comma comma) with true.
      cbv iota. unfold save_field. cbn [rd_field rd_fields rd_table].
      now rewrite text_of_rev_rev.
Qed.

(** A written field followed by a line feed closes the record.  At the
    start of a record this needs the field to leave a trace in the
    text: an empty unquoted field there is a blank line. *)
Lemma read_field_newline (st : ParserState) (c rest : string) :
  st = START_FIELD \/ (st = START_RECORD /\ write_field c <> EmptyString) ->
  bare_break newline c = false ->
  run newline (mkReader st [] R T) (write_field c ++ String LF rest) =
  run newline (mkReader START_RECORD [] [] (rev (c :: R) :: T)) rest.
Proof.
  intros Hst Hbare. rewrite run_app.
  assert (Hst' : start_state st) by (unfold start_state; tauto).
  destruct (needs_quoting c) eqn:Hq.
  - unfold write_field. rewrite Hq.
    rewrite (run_quoted _ _ Hst'). cbn [run]. unfold step. cbn [rd_state].
    change (Ascii.eqb LF dquote) with false. change (Ascii.eqb LF comma) with false.
    rewrite newline_LF.
    cbv iota. unfold end_record. cbn [rd_field rd_fields rd_table].
    now rewrite text_of_rev_rev.
  - pose proof (bare_break_false _ _ Hbare Hq) as Hb.
    destruct c as [|a c].
    + destruct Hst as [-> | [_ Hne]].
      * cbn [write_field needs_quoting append run]. unfold step. cbn [rd_state].
        rewrite newline_LF. reflexivity.
      * exfalso. apply Hne. reflexivity.
    + unfold write_field. rewrite Hq.
      rewrite (run_plain_start _ _ _ Hst' Hq Hb). cbn [run]. unfold step. cbn [rd_state].
      rewrite newline_LF.
      cbv iota. unfold end_record. cbn [rd_field rd_fields rd_table].
      now rewrite text_of_rev_rev.
Qed.

End Field.

Lemma read_fields_newline (fields : list string) (R : list string)
    (T : list (list string)) (rest : string) :
  fields <> [] ->
  Forall (fun c => bare_break newline c = false) fields ->
  run newline (mkReader START_FIELD [] R T) (join_fields fields ++ String LF rest) =
  run newline (mkReader START_RECORD [] [] (rev (rev fields ++ R) :: T)) rest.
Proof.
  revert R. induction fields as [|c t IH]; intros R Hne Hall; [contradiction|].
  inversion Hall as [|? ? Hc Ht]; subst.
  destruct t as [|c' t].
  - cbn [join_fields]. rewrite read_field_newline; [reflexivity | now left | exact Hc].
  - change (join_fields (c :: c' :: t))
      with (write_field c ++ String comma (join_fields (c' :: t)))%string.
    rewrite append_assoc. cbn [append].
    rewrite read_field_comma; [|now right | exact Hc].
    rewrite IH; [|discriminate | exact Ht].
    cbn [rev]. now rewrite <- !app_assoc.
Qed.

(** A written line is read back as its record. *)
Lemma read_line (fields : list string) (T : list (list string)) (rest : string) :
  fields <> [] ->
  Forall (fun c => bare_break newline c = false) fields ->
  run newline (mkReader START_RECORD [] [] T) (write_line fields ++ rest) =
  run newline (mkReader START_RECORD [] [] (fields :: T)) rest.
Proof.
  intros Hne Hall. unfold write_line. rewrite append_assoc. cbn [append].
  destruct fields as [|c t]; [contradiction|].
  inversion Hall as [|? ? Hc Ht]; subst.
  destruct t as [|c' t].
  - destruct c as [|a c].
    + cbn [write_record]. rewrite run_app, run_quoted by (now left).
      cbn [run]. unfold step. cbn [rd_state].
      change (Ascii.eqb LF dquote) with false. change (Ascii.eqb LF comma) with false.
      rewrite newline_LF. reflexivity.
    + change (write_record [String a c]) with (write_field (String a c)).
      rewrite read_field_newline; [reflexivity | | exact Hc].
      right. split; [reflexivity|]. intros E. apply write_field_empty in E. discriminate.
  - assert (E : write_record (c :: c' :: t) =
                (write_field c ++ String comma (join_fields (c' :: t)))%string)
      by (destruct c; reflexivity).
    rewrite E, append_assoc. cbn [append].
    rewrite read_field_comma; [|now left | exact Hc].
    rewrite read_fields_newline; [|discriminate | exact Ht].
    now rewrite rev_app_distr, rev_involutive.
Qed.

Lemma read_lines (table T : list (list string)) :
  Forall (fun fields => fields <> [] /\
                        Forall (fun c => bare_break newline c = false) fields) table ->
  run newline (mkReader START_RECORD [] [] T) (write_lines table) =
  mkReader START_RECORD [] [] (rev table ++ T).
Proof.
  intros H. revert T. induction H as [|fields table [Hf Hb] Ht IH]; intros T.
  - reflexivity.
  - cbn [write_lines]. rewrite read_line by assumption.
    rewrite IH. cbn [rev]. now rewrite <- app_assoc.
Qed.

Lemma read_with_write_lines (table : list (list string)) :
  Forall (fun fields => fields <> [] /\
                        Forall (fun c => bare_break newline c = false) fields) table ->
  read_with newline (write_lines table) = table.
Proof.
  intros H. unfold read_with. rewrite (read_lines _ _ H).
  unfold finish. cbn [rd_state rd_table]. now rewrite app_nil_r, rev_involutive.
Qed.

End ReadBack.

Lemma columns_no_bare_break :
  Forall (fun c => bare_break is_newline c = false) columns.
Proof. unfold columns. repeat (constructor; [reflexivity|]). constructor. Qed.

(** No cell is written bare with a line feed in it. *)
Lemma bare_break_LF (c : string) : bare_break is_LF c = false.
Proof.
  unfold bare_break. destruct (needs_quoting c) eqn:E; [reflexivity|]. simpl.
  induction c as [|a c IH]; [reflexivity|].
  apply needs_quoting_cons in E. destruct E as [Ha Hc].
  apply special_false in Ha. destruct Ha as [_ [_ HLF]].
  simpl. unfold is_LF at 1. rewrite HLF. now apply IH.
Qed.

(** For every frame and every rendering, the reader that ends lines at
    line feeds only reads the export back cell for cell. *)
Lemma to_csv_cells (F : Formatter) (fdf : DataFrame) :
  read_with is_LF (to_csv F fdf) = columns :: map (cells F) fdf.
Proof.
  unfold to_csv. apply read_with_write_lines; try reflexivity.
  apply Forall_forall. intros fields Hin. split.
  - destruct Hin as [<-|Hin]; [discriminate|].
    apply in_map_iff in Hin. destruct Hin as [r [<- _]]. discriminate.
  - apply Forall_forall. intros c _. apply bare_break_LF.
Qed.

(** C9 (as the code has it).  If no cell of the frame is written bare
    with a carriage return in it - every cell that holds a carriage
    return also holds a comma, a double quote or a line feed, so that the
    writer quotes it - then reading the exported text back gives the
    header, the columns in field order with no index column, followed by
    one record per row of the filtered frame, in frame order, each
    holding the row's cells as they were exported: text fields verbatim
    (commas, quotes and line breaks in them included), a null as the
    empty cell, and numbers and dates in their printed form, whatever
    that form is. *)
Theorem csv_round_trip (F : Formatter) (fdf : DataFrame) :
  (forall r cell, In r fdf -> In cell (cells F r) ->
                  bare_break is_newline cell = false) ->
  read_csv (to_csv F fdf) = columns :: map (cells F) fdf /\
  length (tl (read_csv (to_csv F fdf))) = length fdf /\
  Forall (fun record => length record = length columns) (read_csv (to_csv F fdf)) /\
  (forall i r, nth_error fdf i = Some r ->
     exists record,
       nth_error (tl (read_csv (to_csv F fdf))) i = Some record /\
       nth_error record 1 = Some (order_number r) /\
       nth_error record 3 = Some (state_name (state r)) /\
       nth_error record 4 = Some (customer r) /\
       nth_error record 5 = Some (text_cell (salesperson r)) /\
       nth_error record 8 = Some (product r) /\
       nth_error record 9 = Some (text_cell (category r)) /\
       nth_error record 0 = Some (fmt_int F (order_id r)) /\
       nth_error record 2 = Some (fmt_date F (order_date r)) /\
       nth_error record 6 = Some (fmt_float F (product_uom_qty r)) /\
       nth_error record 7 = Some (fmt_float F (price_total r))).
Proof.
  intros Hsafe.
  assert (E : read_csv (to_csv F fdf) = columns :: map (cells F) fdf).
  { unfold read_csv, to_csv. apply read_with_write_lines; try reflexivity.
    constructor.
    - split; [discriminate | apply columns_no_bare_break].
    - apply Forall_forall. intros fields Hin. apply in_map_iff in Hin.
      destruct Hin as [r [<- Hr]]. split; [discriminate|].
      apply Forall_forall. intros c Hc. now apply (Hsafe r). }
  rewrite E. cbn [tl]. split; [reflexivity|].
  split; [apply length_map|].
  split.
  { constructor; [reflexivity|]. apply Forall_forall. intros fields Hin.
    apply in_map_iff in Hin. destruct Hin as [r [<- _]]. reflexivity. }
  intros i r Hi. exists (cells F r).
  split; [now apply map_nth_error|].
  repeat split.
Qed.

Lemma csv_round_trip_witness :
  (forall r cell, In r [sale_to_B; quoted_name_fact] ->
                  In cell (cells sample_format r) ->
                  bare_break is_newline cell = false) /\
  read_csv (to_csv sample_format [sale_to_B; quoted_name_fact])
    = columns :: map (cells sample_format) [sale_to_B; quoted_name_fact] /\
  length (tl (read_csv (to_csv sample_format [sale_to_B; quoted_name_fact]))) = 2%nat.
Proof.
  assert (H : forall r cell, In r [sale_to_B; quoted_name_fact] ->
                             In cell (cells sample_format r) ->
                             bare_break is_newline cell = false).
  { intros r cell [<-|[<-|[]]] Hc; simpl in Hc;
      repeat (destruct Hc as [<-|Hc]; [reflexivity|]); destruct Hc. }
  split; [exact H|].
  destruct (csv_round_trip sample_format [sale_to_B; quoted_name_fact] H)
    as [H1 [H2 _]].
  split; [exact H1 | exact H2].
Defined.

(** C9 as stated fails.  A customer name that holds a carriage return
    and nothing that forces quotes is written bare; read back, the
    carriage return ends the record, so the single row comes back as two
    records, neither of them with the ten cells of the header. *)
Lemma csv_round_trip_counterexample :
  length [cr_name_fact] = 1%nat /\
  length (tl (read_csv (to_csv sample_format [cr_name_fact]))) = 2%nat /\
  read_csv (to_csv sample_format [cr_name_fact])
    <> columns :: map (cells sample_format) [cr_name_fact] /\
  ~ Forall (fun record => length record = length columns)
           (read_csv (to_csv sample_format [cr_name_fact])).
Proof.
  split; [reflexivity|]. split; [reflexivity|].
  split.
  - intros E. apply (f_equal (@length (list string))) in E. vm_compute in E. discriminate.
  - intros H. inversion H as [|? ? _ H']; subst.
    vm_compute in H'. inversion H' as [|? ? E _]. discriminate.
Qed.

(* ================================================================== *)
(** * Part III - further properties of the code                       *)
(* ================================================================== *)

(** ** The filter, further *)

Lemma filter_idem {A} (f : A -> bool) (l : list A) : filter f (filter f l) = filter f l.
Proof.
  rewrite filter_filter. apply filter_ext. intro x. now destruct (f x).
Qed.

(** X1. Filtering is idempotent: applying the same criteria to an already
    filtered frame changes nothing, rows and order included. *)
Theorem filtered_df_idempotent (df : DataFrame) (c : FilterCriteria) :
  filtered_df (filtered_df df c) c = filtered_df df c.
Proof.
  rewrite (filtered_df_filter (filtered_df df c)), filtered_df_filter.
  apply filter_idem.
Qed.

Lemma filter_nil_when {A} (f : A -> bool) (l : list A) :
  (forall x, In x l -> f x = false) -> filter f l = [].
Proof.
  induction l as [|x l IH]; simpl; intros H; [reflexivity|].
  rewrite (H x) by now left. apply IH. intros y Hy. apply H. now right.
Qed.

(** X2. Every row that survives the filter is dated inside the window,
    bounds included; a window of a single day keeps only rows of that
    day; and a window whose start lies after its end keeps no row. *)
Theorem filtered_df_window (df : DataFrame) (c : FilterCriteria) :
  (forall r, In r (filtered_df df c) ->
     (start_date c <= order_date r <= end_date c)%Z) /\
  (start_date c = end_date c ->
     forall r, In r (filtered_df df c) -> order_date r = start_date c) /\
  ((end_date c < start_date c)%Z -> filtered_df df c = []).
Proof.
  split; [intros r; apply filtered_df_in_window|].
  split.
  - intros E r Hr. apply filtered_df_in_window in Hr. lia.
  - intros Hlt. rewrite filtered_df_filter. apply filter_nil_when.
    intros r _. unfold passesb, date_mask.
    destruct (start_date c <=? order_date r)%Z eqn:E1;
      destruct (order_date r <=? end_date c)%Z eqn:E2; try reflexivity.
    apply Z.leb_le in E1. apply Z.leb_le in E2. lia.
Qed.

Lemma subseq_filter_impl {A} (f g : A -> bool) (l : list A) :
  (forall x, f x = true -> g x = true) -> subseq (filter f l) (filter g l).
Proof.
  intros H. induction l as [|x l IH]; simpl; [constructor|].
  destruct (f x) eqn:E.
  - rewrite (H x E). now constructor.
  - destruct (g x); [now constructor | assumption].
Qed.

(** X3. The filter of app.py refines the filter of app_old.py: on the
    same window and salesperson selection its frame is a subsequence of
    the old one, and the two coincide when no customer and no category is
    selected. *)
Theorem filtered_df_refines_old (df : DataFrame) (c : FilterCriteria) :
  subseq (filtered_df df c)
         (filtered_df_old df (start_date c) (end_date c) (salesperson_selected c)) /\
  (customer_selected c = [] -> category_selected c = [] ->
   filtered_df df c =
   filtered_df_old df (start_date c) (end_date c) (salesperson_selected c)).
Proof.
  rewrite filtered_df_filter, filtered_df_old_filter. split.
  - apply subseq_filter_impl. intros r. unfold passesb, date_mask.
    rewrite !andb_true_iff. tauto.
  - intros E1 E2. apply filter_ext. intros r. unfold passesb, date_mask.
    rewrite E1, E2. simpl. now rewrite !andb_true_r.
Qed.

(** X4. Widening the date window, the selections unchanged, never
    removes a row: the frame of the narrower window is a subsequence of
    the frame of the wider one. *)
Theorem filtered_df_window_monotone (df : DataFrame) (c c' : FilterCriteria) :
  (start_date c' <= start_date c)%Z -> (end_date c <= end_date c')%Z ->
  salesperson_selected c' = salesperson_selected c ->
  customer_selected c' = customer_selected c ->
  category_selected c' = category_selected c ->
  subseq (filtered_df df c) (filtered_df df c').
Proof.
  intros Hs He E1 E2 E3. rewrite !filtered_df_filter.
  apply subseq_filter_impl. intros r. unfold passesb, date_mask.
  rewrite E1, E2, E3, !andb_true_iff, !Z.leb_le.
  intros [[[[H1 H2] H3] H4] H5]. repeat split; try assumption; lia.
Qed.

Lemma filtered_df_window_monotone_witness :
  (100 <= start_date late_window)%Z /\ (end_date late_window <= 105)%Z /\
  subseq (filtered_df returning_customer_facts late_window)
         (filtered_df returning_customer_facts (mkCriteria 100 105 [] [] [])).
Proof.
  assert (H1 : (100 <= start_date late_window)%Z) by (simpl; lia).
  assert (H2 : (end_date late_window <= 105)%Z) by (simpl; lia).
  split; [exact H1|]. split; [exact H2|].
  now apply filtered_df_window_monotone.
Defined.

(** X5. The dashboard as it first renders shows every row: with the date
    inputs at their defaults, the earliest and latest order date, and
    nothing selected, the filtered frame is the loaded frame. *)
Theorem default_view_shows_all (df : DataFrame) (c : FilterCriteria) :
  default_criteria df = Some c -> filtered_df df c = df.
Proof.
  unfold default_criteria, min_date, max_date. intros H.
  destruct (map order_date df) as [|d t] eqn:E.
  - simpl in H. discriminate.
  - assert (Hne : d :: t <> []) by discriminate.
    destruct (series_min_spec (d :: t) Hne) as [lo [Hlo [_ Hlo_le]]].
    destruct (series_max_spec (d :: t) Hne) as [hi [Hhi [_ Hhi_le]]].
    rewrite Hlo, Hhi in H. injection H as <-.
    rewrite filtered_df_filter. apply filter_all, Forall_forall.
    intros r Hr. unfold passesb, date_mask. simpl.
    assert (Hd : In (order_date r) (d :: t)) by (rewrite <- E; now apply in_map).
    rewrite !andb_true_r, andb_true_iff, !Z.leb_le. auto.
Qed.

Lemma default_view_shows_all_witness :
  exists c, default_criteria returning_customer_facts = Some c /\
            filtered_df returning_customer_facts c = returning_customer_facts.
Proof.
  eexists. split; [reflexivity|].
  now apply default_view_shows_all.
Defined.

(** ** Options of the multiselects *)

Lemma dropna_In {A} (l : list (option A)) (x : A) : In x (dropna l) <-> In (Some x) l.
Proof.
  unfold dropna. rewrite in_flat_map. split.
  - intros [o [Ho Hx]]. destruct o as [y|]; simpl in Hx; [|contradiction].
    destruct Hx as [<-|[]]. assumption.
  - intros H. exists (Some x). split; [assumption | now left].
Qed.

Lemma filter_nonempty {A} (f : A -> bool) (l : list A) (x : A) :
  In x l -> f x = true -> filter f l <> [].
Proof.
  intros Hx Hf E.
  assert (H : In x (filter f l)) by (apply filter_In; auto).
  rewrite E in H. destruct H.
Qed.

(** One step of the sidebar: a selection taken from the options of a
    nullable column of a non-empty frame leaves the frame non-empty. *)
Lemma selection_step_nonempty (col : OrderLineFact -> option string)
    (f : DataFrame) (sel : list string) :
  f <> [] ->
  incl sel (unique String.eqb (dropna (map col f))) ->
  (if truthy sel then filter (fun r => isin (col r) sel) f else f) <> [].
Proof.
  intros Hf Hincl. destruct sel as [|s sel]; [exact Hf|]. cbn [truthy].
  assert (Hs : In s (unique String.eqb (dropna (map col f)))) by (apply Hincl; now left).
  apply (unique_In String.eqb String.eqb_eq), dropna_In, in_map_iff in Hs.
  destruct Hs as [r [Hcol Hr]].
  apply (filter_nonempty _ _ r Hr). rewrite Hcol. simpl.
  now rewrite String.eqb_refl.
Qed.

Lemma dropna_map_Some {A B} (g : A -> B) (l : list A) :
  dropna (map (fun x => Some (g x)) l) = map g l.
Proof. unfold dropna. induction l; simpl; congruence. Qed.

Lemma filtered_df_stages (df : DataFrame) (c : FilterCriteria) :
  filtered_df df c =
  if truthy (category_selected c)
  then filter (fun r => isin (category r) (category_selected c)) (customer_filtered df c)
  else customer_filtered df c.
Proof. reflexivity. Qed.

(** X6. Selections made as the sidebar offers them cannot empty the
    frame.  Each multiselect offers the distinct non-null values of its
    column in the frame as filtered so far; if the date window holds at
    least one row and every selected value is among the options offered
    at its step, the filtered frame has at least one row.  The option
    lists themselves hold no value twice. *)
Theorem offered_selections_keep_rows (df : DataFrame) (c : FilterCriteria) :
  date_filtered df c <> [] ->
  incl (salesperson_selected c) (salesperson_options df c) ->
  incl (customer_selected c) (customer_options df c) ->
  incl (category_selected c) (category_options df c) ->
  filtered_df df c <> [] /\
  NoDup (salesperson_options df c) /\
  NoDup (customer_options df c) /\
  NoDup (category_options df c).
Proof.
  intros H0 Hsp Hcu Hca.
  assert (H1 : salesperson_filtered df c <> [])
    by (apply selection_step_nonempty; assumption).
  assert (H2 : customer_filtered df c <> []).
  { unfold customer_filtered.
    apply (selection_step_nonempty (fun r => Some (customer r))); [assumption|].
    rewrite dropna_map_Some. exact Hcu. }
  split.
  { rewrite filtered_df_stages. apply selection_step_nonempty; assumption. }
  repeat split; apply unique_NoDup, String.eqb_eq.
Qed.

Lemma offered_selections_keep_rows_witness :
  let c := mkCriteria 103 105 [] ["A"%string] [] in
  date_filtered returning_customer_facts c <> [] /\
  incl (customer_selected c) (customer_options returning_customer_facts c) /\
  filtered_df returning_customer_facts c <> [].
Proof.
  intros c.
  assert (H0 : date_filtered returning_customer_facts c <> [])
    by (vm_compute; discriminate).
  assert (Hi : forall l : list string, incl [] l) by (intros l x []).
  assert (Hc : incl (customer_selected c) (customer_options returning_customer_facts c))
    by (intros x [<-|[]]; vm_compute; auto).
  split; [exact H0|]. split; [exact Hc|].
  apply (offered_selections_keep_rows returning_customer_facts c H0);
    [apply Hi | exact Hc | apply Hi].
Defined.

(** ** Counts *)

Lemma unique_length_le {A} (eqb : A -> A -> bool) (l : list A) :
  (length (unique eqb l) <= length l)%nat.
Proof.
  induction l as [|x l IH]; simpl; [lia|].
  pose proof (filter_length_le (fun y => negb (eqb x y)) (unique eqb l)). lia.
Qed.

Lemma nunique_zero_iff {A} (eqb : A -> A -> bool) (l : list A) :
  nunique eqb l = 0%nat <-> l = [].
Proof.
  unfold nunique. destruct l; simpl; split; intros H; try reflexivity; discriminate.
Qed.

(** X7. The order and customer counts are bounded by the number of rows
    and vanish only for the empty frame; so the guard of
    [avg_order_value] takes its zero branch for the empty frame and for
    no other. *)
Theorem counts_vanish_only_when_empty (fdf : DataFrame) :
  (total_orders fdf <= length fdf)%nat /\
  (total_customers fdf <= length fdf)%nat /\
  (total_orders fdf = 0%nat <-> fdf = []) /\
  (total_customers fdf = 0%nat <-> fdf = []) /\
  (fdf <> [] ->
   avg_order_value fdf =
     Returned (total_sales fdf / inject_Z (Z.of_nat (total_orders fdf)))).
Proof.
  unfold total_orders, total_customers.
  assert (Hmap : forall (g : OrderLineFact -> string), map g fdf = [] <-> fdf = []).
  { intro g. destruct fdf; simpl; split; intros H; try reflexivity; discriminate. }
  split. { unfold nunique. rewrite <- (length_map order_number fdf). apply unique_length_le. }
  split. { unfold nunique. rewrite <- (length_map customer fdf). apply unique_length_le. }
  split. { rewrite nunique_zero_iff. apply Hmap. }
  split. { rewrite nunique_zero_iff. apply Hmap. }
  intros Hne. unfold avg_order_value, true_div, total_orders.
  destruct (nunique String.eqb (map order_number fdf)) as [|n] eqn:E.
  - apply nunique_zero_iff, Hmap in E. contradiction.
  - reflexivity.
Qed.

(** ** Sums over groups *)









(** ** Columns with nulls *)


Section GroupByDropna.

Variable by_ : OrderLineFact -> option string.





End GroupByDropna.




(** ** Rankings, further *)

Lemma StronglySorted_app_inv {A} (R : A -> A -> Prop) (l1 l2 : list A) :
  StronglySorted R (l1 ++ l2) -> forall a b, In a l1 -> In b l2 -> R a b.
Proof.
  induction l1 as [|x l1 IH]; simpl; intros HS a b Ha Hb; [destruct Ha|].
  inversion HS as [|? ? Hl Hx]; subst. destruct Ha as [<-|Ha].
  - rewrite Forall_forall in Hx. apply Hx, in_or_app. now right.
  - now apply (IH Hl).
Qed.



(** X12. What a ranking leaves out is never larger than what it shows:
    every group that is not among the listed ten has a sum no greater
    than the sum of each listed group. *)
Theorem top_n_dominates (sort : sorter) (sort_ok : sorts sort)
    (by_ : OrderLineFact -> string) (fdf : DataFrame) (t g : string * Q) :
  In t (top_n sort by_ fdf) ->
  In g (groupby String.eqb String.leb by_ total_sales fdf) ->
  ~ In g (top_n sort by_ fdf) ->
  snd g <= snd t.
Proof.
  unfold top_n.
  set (G := groupby String.eqb String.leb by_ total_sales fdf).
  set (R := sort_values_desc sort G).
  intros Ht Hg Hng.
  assert (HS : StronglySorted (fun a b : string * Q => snd b <= snd a)
                 (firstn 10 R ++ skipn 10 R))
    by (rewrite firstn_skipn; now apply sort_values_desc_sorted).
  assert (HgR : In g (firstn 10 R ++ skipn 10 R)).
  { rewrite firstn_skipn.
    apply (Permutation_in _ (Permutation_sym (sort_values_desc_perm sort sort_ok G))).
    exact Hg. }
  apply in_app_or in HgR. destruct HgR as [HgR|HgR]; [contradiction|].
  exact (StronglySorted_app_inv _ _ _ HS t g Ht HgR).
Qed.

Lemma top_n_dominates_witness :
  sorts stable_sort /\
  In ("K"%string, 10) (top_n stable_sort customer eleven_customer_facts) /\
  In ("A"%string, 0)
     (groupby String.eqb String.leb customer total_sales eleven_customer_facts) /\
  ~ In ("A"%string, 0) (top_n stable_sort customer eleven_customer_facts) /\
  snd ("A"%string, 0) <= snd ("K"%string, 10).
Proof.
  assert (H1 : In ("K"%string, 10) (top_n stable_sort customer eleven_customer_facts))
    by (vm_compute; auto).
  assert (H2 : In ("A"%string, 0)
                 (groupby String.eqb String.leb customer total_sales
                          eleven_customer_facts))
    by (vm_compute; auto).
  assert (H3 : ~ In ("A"%string, 0) (top_n stable_sort customer eleven_customer_facts))
    by (vm_compute; intuition discriminate).
  split; [exact stable_sort_sorts|].
  split; [exact H1|]. split; [exact H2|]. split; [exact H3|].
  exact (top_n_dominates stable_sort stable_sort_sorts customer eleven_customer_facts
           _ _ H1 H2 H3).
Defined.

(** ** New customers, further *)

Lemma filter_length_perm {A} (p : A -> bool) (l l' : list A) :
  Permutation l l' -> length (filter p l) = length (filter p l').
Proof.
  induction 1 as [|x l l' _ IH|x y l|l l' l'' _ IH1 _ IH2]; simpl.
  - reflexivity.
  - destruct (p x); simpl; congruence.
  - destruct (p x), (p y); reflexivity.
  - congruence.
Qed.

Lemma fold_min_ge_iff (t : list Z) (x lo : Z) :
  (lo <= fold_left Z.min t x)%Z <-> forall d, In d (x :: t) -> (lo <= d)%Z.
Proof.
  destruct (fold_min_spec t x) as [Hin Hle]. split.
  - intros H d Hd. specialize (Hle d Hd). lia.
  - intros H. now apply H.
Qed.

(** X13. On any frame, [new_customers] counts the customers none of
    whose rows in that frame is dated before the start date; it never
    exceeds the number of customers.  Taken over the whole fact set it
    would be the count of first-time customers. *)
Theorem new_customers_counts (fdf : DataFrame) (start : Z) :
  new_customers fdf start = first_time_customers fdf fdf start /\
  (new_customers fdf start <= total_customers fdf)%nat.
Proof.
  unfold new_customers, first_time_customers, total_customers, groupby, nunique.
  set (keys := unique String.eqb (map customer fdf)).
  set (test := fun k => forallb (fun r => negb (String.eqb (customer r) k)
                                          || (start <=? order_date r)%Z) fdf).
  assert (E : length (filter (fun g : string * option Z =>
                                match snd g with
                                | Some m => (start <=? m)%Z
                                | None => false
                                end)
                 (map (fun k => (k, series_min (map order_date
                                   (filter (fun r => String.eqb (customer r) k) fdf))))
                      (insertion_sort String.leb keys)))
              = length (filter test keys)).
  { rewrite <- (filter_length_perm test _ _ (insertion_sort_perm String.leb keys)).
    assert (Hkeys : forall k, In k (insertion_sort String.leb keys) ->
                              exists r, In r fdf /\ customer r = k).
    { intros k Hk. apply (Permutation_in _ (insertion_sort_perm String.leb keys)) in Hk.
      apply (unique_In String.eqb String.eqb_eq), in_map_iff in Hk.
      destruct Hk as [r [Hr1 Hr2]]. now exists r. }
    induction (insertion_sort String.leb keys) as [|k l IH]; [reflexivity|].
    cbn [map filter snd].
    assert (Hk : (match series_min (map order_date
                          (filter (fun r => String.eqb (customer r) k) fdf)) with
                  | Some m => (start <=? m)%Z
                  | None => false
                  end) = test k).
    { destruct (Hkeys k (or_introl eq_refl)) as [r0 [Hr0 Hr0k]].
      assert (Hin0 : In (order_date r0)
                        (map order_date (filter (fun r => String.eqb (customer r) k) fdf))).
      { apply in_map, filter_In. split; [assumption | now apply String.eqb_eq]. }
      destruct (map order_date (filter (fun r => String.eqb (customer r) k) fdf))
        as [|d t] eqn:Ed; [destruct Hin0|].
      cbn [series_min]. unfold test.
      apply Bool.eq_true_iff_eq. rewrite Z.leb_le, fold_min_ge_iff, forallb_forall.
      split.
      - intros H r Hr. destruct (String.eqb (customer r) k) eqn:Ek; [|reflexivity].
        simpl. apply Z.leb_le, H. rewrite <- Ed.
        apply in_map, filter_In. now split.
      - intros H d' Hd'. rewrite <- Ed in Hd'. apply in_map_iff in Hd'.
        destruct Hd' as [r [<- Hr]]. apply filter_In in Hr. destruct Hr as [Hr Ek].
        specialize (H r Hr). rewrite Ek in H. simpl in H. now apply Z.leb_le. }
    rewrite Hk. destruct (test k); cbn [length]; rewrite IH; auto.
    - intros k' Hk'. apply Hkeys. now right.
    - intros k' Hk'. apply Hkeys. now right. }
  rewrite E. split; [reflexivity | apply filter_length_le].
Qed.

(** ** Forecast, further *)

Lemma map_fst_combine_same {A B C} (g : A -> B) (h : A -> C) (l : list A) :
  map fst (combine (map g l) (map h l)) = map g l.
Proof. rewrite combine_map_same, map_map. reflexivity. Qed.

(** An ascending list without repetition is strictly ascending. *)
Lemma sorted_NoDup_strict (l : list Z) :
  StronglySorted (fun a b => (a <=? b)%Z = true) l -> NoDup l ->
  StronglySorted Z.lt l.
Proof.
  induction 1 as [|x l Hl IH Hx]; intros Hnd; constructor.
  - apply IH. now inversion Hnd.
  - inversion Hnd as [|? ? Hnotin _]; subst.
    rewrite Forall_forall in *. intros y Hy.
    specialize (Hx y Hy). apply Z.leb_le in Hx.
    assert (x <> y) by (intros ->; contradiction). lia.
Qed.

(** The input and the output of the forecast block, for any frame with a
    row. *)
Lemma forecast_sample (fdf : DataFrame) :
  fdf <> [] ->
  let daily := daily_sales_forecast fdf in
  let X := day_number daily in
  let y := map snd daily in
  exists m M model,
    (exists r, In r fdf /\ order_date r = m) /\
    (exists r, In r fdf /\ order_date r = M) /\
    (forall r, In r fdf -> (m <= order_date r <= M)%Z) /\
    X = map (fun d => d - m)%Z (map fst daily) /\
    last_day X = Returned (M - m)%Z /\
    future_days X = Returned (map (fun i => M - m + 1 + Z.of_nat i)%Z (seq 0 30)) /\
    fit X y = Returned model /\
    forecast_df fdf =
      Returned (combine (map (fun i => M + 1 + Z.of_nat i)%Z (seq 0 30))
                        (map (fun i => predict model (M - m + 1 + Z.of_nat i))
                             (seq 0 30))).
Proof.
  intros Hfdf daily X y.
  set (dates := map fst daily).
  assert (Hdates : dates = insertion_sort Z.leb (unique Z.eqb (map order_date fdf)))
    by apply daily_dates.
  assert (Hperm : Permutation dates (unique Z.eqb (map order_date fdf)))
    by (rewrite Hdates; apply insertion_sort_perm).
  assert (Hin : forall d, In d dates <-> In d (map order_date fdf)).
  { intro d. rewrite <- (unique_In Z.eqb Z.eqb_eq (map order_date fdf) d).
    split; apply Permutation_in; [assumption | now symmetry]. }
  assert (Hne : dates <> []).
  { intros E. destruct fdf as [|r fdf']; [contradiction|].
    assert (H : In (order_date r) dates) by (apply Hin; now left).
    rewrite E in H. destruct H. }
  destruct (series_min_spec dates Hne) as [m [Hmin [Hm_in Hm_le]]].
  destruct (series_max_spec dates Hne) as [M [Hmax [HM_in HM_le]]].
  assert (HX : X = map (fun d => d - m)%Z dates).
  { unfold X, day_number. fold dates. rewrite Hmin. unfold dates.
    now rewrite map_map. }
  assert (HXne : X <> []).
  { rewrite HX. intros E. apply map_eq_nil in E. contradiction. }
  destruct (fit_returns X y HXne) as [model Hfit].
  assert (Hsorted : StronglySorted (fun a b => (a <=? b)%Z = true) dates).
  { rewrite Hdates. apply insertion_sort_sorted; [apply Zleb_total | apply Zleb_trans]. }
  destruct (ascending_last dates Hsorted Hne) as [z [rest [Hrev [Hz_in Hz_le]]]].
  assert (HzM : z = M).
  { apply Z.le_antisymm; [now apply HM_le | now apply Hz_le]. }
  subst z.
  assert (Hlast : last_day X = Returned (M - m)%Z).
  { unfold last_day. rewrite HX, <- map_rev, Hrev. reflexivity. }
  assert (Hfuture : future_days X =
                    Returned (map (fun i => M - m + 1 + Z.of_nat i)%Z (seq 0 30))).
  { unfold future_days. rewrite Hlast. cbn [bind]. now rewrite arange_30. }
  exists m, M, model.
  split. { apply Hin, in_map_iff in Hm_in. destruct Hm_in as [r [E Hr]]. now exists r. }
  split. { apply Hin, in_map_iff in HM_in. destruct HM_in as [r [E Hr]]. now exists r. }
  split.
  { intros r Hr.
    assert (Hd : In (order_date r) dates) by (apply Hin; now apply in_map).
    split; [now apply Hm_le | now apply HM_le]. }
  split; [exact HX|]. split; [exact Hlast|]. split; [exact Hfuture|].
  split; [exact Hfit|].
  unfold forecast_df. cbv zeta. fold daily. fold X. fold y.
  rewrite Hfit. cbn [bind]. rewrite Hfuture. cbn [bind].
  fold dates. rewrite Hmax. unfold date_range. now rewrite map_map.
Qed.

(** X14. The forecast block fails on the empty frame and on no other:
    it raises [ValueError] exactly when the filtered frame has no row.
    For every other frame it returns 30 rows, dated with the 30 days that
    follow the latest order date. *)
Theorem forecast_fails_only_when_empty (fdf : DataFrame) :
  (forecast_df fdf = Raised ValueError <-> fdf = []) /\
  (forall e, forecast_df fdf = Raised e -> e = ValueError) /\
  (fdf <> [] ->
   exists M rows,
     (exists r, In r fdf /\ order_date r = M) /\
     (forall r, In r fdf -> (order_date r <= M)%Z) /\
     forecast_df fdf = Returned rows /\
     map fst rows = map (fun i => M + 1 + Z.of_nat i)%Z (seq 0 30) /\
     length rows = 30%nat).
Proof.
  assert (Hret : fdf <> [] ->
     exists M rows,
       (exists r, In r fdf /\ order_date r = M) /\
       (forall r, In r fdf -> (order_date r <= M)%Z) /\
       forecast_df fdf = Returned rows /\
       map fst rows = map (fun i => M + 1 + Z.of_nat i)%Z (seq 0 30) /\
       length rows = 30%nat).
  { intros Hne.
    destruct (forecast_sample fdf Hne)
      as [m [M [model [_ [HM [Hb [_ [_ [_ [_ Hfc]]]]]]]]]].
    eexists M, _. split; [exact HM|].
    split; [intros r Hr; apply (Hb r Hr)|].
    split; [exact Hfc|].
    split; [apply map_fst_combine_same|].
    now rewrite length_combine, !length_map, length_seq. }
  split; [|split; [|exact Hret]].
  - split.
    + intros H. destruct fdf as [|r fdf']; [reflexivity|].
      destruct Hret as [M [rows [_ [_ [E _]]]]]; [discriminate|].
      rewrite E in H. discriminate.
    + intros ->. reflexivity.
  - intros e H. destruct fdf as [|r fdf'].
    + vm_compute in H. congruence.
    + destruct Hret as [M [rows [_ [_ [E _]]]]]; [discriminate|].
      rewrite E in H. discriminate.
Qed.

(** X21. The regression is fitted and evaluated on day numbers that are
    offsets in days from the earliest order date of the frame: the
    sample has one day number per distinct order date, the date minus
    the earliest date (its offset, not its rank among the dates), the
    last of them being that of the latest date; and the day numbers
    handed to [predict] are the 30 integers that follow the last one. *)
Theorem forecast_day_numbers (fdf : DataFrame) :
  fdf <> [] ->
  exists m M,
    (exists r, In r fdf /\ order_date r = m) /\
    (exists r, In r fdf /\ order_date r = M) /\
    (forall r, In r fdf -> (m <= order_date r <= M)%Z) /\
    StronglySorted Z.lt (map fst (daily_sales_forecast fdf)) /\
    (forall d, In d (map fst (daily_sales_forecast fdf)) <->
               exists r, In r fdf /\ order_date r = d) /\
    day_number (daily_sales_forecast fdf) =
      map (fun d => d - m)%Z (map fst (daily_sales_forecast fdf)) /\
    last_day (day_number (daily_sales_forecast fdf)) = Returned (M - m)%Z /\
    future_days (day_number (daily_sales_forecast fdf)) =
      Returned (map (fun i => M - m + 1 + Z.of_nat i)%Z (seq 0 30)).
Proof.
  intros Hne.
  destruct (forecast_sample fdf Hne)
    as [m [M [model [Hm [HM [Hb [HX [Hlast [Hfuture _]]]]]]]]].
  exists m, M.
  split; [exact Hm|]. split; [exact HM|]. split; [exact Hb|].
  split.
  { apply sorted_NoDup_strict.
    - unfold daily_sales_forecast. rewrite groupby_keys.
      apply insertion_sort_sorted; [apply Zleb_total | apply Zleb_trans].
    - apply groupby_keys_NoDup, Z.eqb_eq. }
  split; [intro d; apply groupby_keys_In, Z.eqb_eq|].
  split; [exact HX|]. split; [exact Hlast | exact Hfuture].
Qed.

Lemma forecast_day_numbers_witness :
  [fact 1 "S00001" 100 sale "B" 100; fact 2 "S00002" 105 draft "A" 200] <> [] /\
  day_number (daily_sales_forecast
                [fact 1 "S00001" 100 sale "B" 100; fact 2 "S00002" 105 draft "A" 200])
    = [0; 5]%Z /\
  exists m M,
    future_days (day_number (daily_sales_forecast
                   [fact 1 "S00001" 100 sale "B" 100; fact 2 "S00002" 105 draft "A" 200]))
      = Returned (map (fun i => M - m + 1 + Z.of_nat i)%Z (seq 0 30)).
Proof.
  assert (H : [fact 1 "S00001" 100 sale "B" 100; fact 2 "S00002" 105 draft "A" 200] <> [])
    by discriminate.
  split; [exact H|]. split; [reflexivity|].
  destruct (forecast_day_numbers _ H) as [m [M [_ [_ [_ [_ [_ [_ [_ Hf]]]]]]]]].
  now exists m, M.
Defined.

(** ** Funnel, further *)

Lemma sum_counts_perm (l l' : list nat) :
  Permutation l l' -> sum_counts l = sum_counts l'.
Proof.
  induction 1 as [|x l l' _ IH|x y l|l l' l'' _ IH1 _ IH2]; simpl; lia.
Qed.

Lemma NoDup_flat_map {A B} (f : A -> list B) (keys : list A) :
  NoDup keys ->
  (forall k, In k keys -> NoDup (f k)) ->
  (forall k1 k2 x, In k1 keys -> In k2 keys -> In x (f k1) -> In x (f k2) -> k1 = k2) ->
  NoDup (flat_map f keys).
Proof.
  induction 1 as [|k keys Hk Hnd IH]; intros Hf Hdisj; simpl; [constructor|].
  apply NoDup_app.
  - apply Hf. now left.
  - apply IH.
    + intros k' Hk'. apply Hf. now right.
    + intros k1 k2 x H1 H2. apply Hdisj; now right.
  - intros x Hx Hx'. apply in_flat_map in Hx'. destruct Hx' as [k' [Hk' Hxk']].
    apply Hk. rewrite (Hdisj k k' x); simpl; auto.
Qed.

(** X16. Every row of the funnel counts at least one order; and when the
    rows of one order agree on its state, as the join makes them, the
    counts of the funnel add up to the number of distinct orders of the
    frame. *)
Theorem funnel_counts_orders (sort : sorter) (sort_ok : sorts sort)
    (fdf : DataFrame) :
  (forall s n, In (s, n) (funnel_df sort fdf) -> (1 <= n)%nat) /\
  (one_state_per_order fdf ->
   sum_counts (map snd (funnel_df sort fdf)) = nunique Z.eqb (map order_id fdf)).
Proof.
  unfold funnel_df. cbv zeta.
  set (G := groupby State_eqb State_leb state
              (fun g => nunique Z.eqb (map order_id g)) fdf).
  destruct (sort_ok _ (fun a b : State * nat =>
                         code_leb (categorical_code stage_order (fst a))
                                  (categorical_code stage_order (fst b))) G) as [HP _].
  set (ids := fun s => map order_id (filter (fun r => State_eqb (state r) s) fdf)).
  set (keys := insertion_sort State_leb (unique State_eqb (map state fdf))).
  assert (HG : G = map (fun s => (s, nunique Z.eqb (ids s))) keys) by reflexivity.
  assert (Hkeys : forall s, In s keys <-> exists r, In r fdf /\ state r = s).
  { intro s. unfold keys. split.
    - intros H. apply (Permutation_in _ (insertion_sort_perm State_leb _)) in H.
      apply (unique_In State_eqb State_eqb_spec), in_map_iff in H.
      destruct H as [r [E Hr]]. now exists r.
    - intros [r [Hr E]].
      apply (Permutation_in _ (Permutation_sym (insertion_sort_perm State_leb _))).
      apply (unique_In State_eqb State_eqb_spec), in_map_iff. now exists r. }
  assert (Hnd : NoDup keys).
  { unfold keys. eapply Permutation_NoDup;
      [symmetry; apply insertion_sort_perm | apply unique_NoDup, State_eqb_spec]. }
  assert (Hids : forall s x, In x (unique Z.eqb (ids s)) <->
                             exists r, In r fdf /\ state r = s /\ order_id r = x).
  { intros s x. rewrite (unique_In Z.eqb Z.eqb_eq). unfold ids.
    rewrite in_map_iff. split.
    - intros [r [E Hr]]. apply filter_In in Hr. destruct Hr as [Hr Hs].
      apply State_eqb_spec in Hs. now exists r.
    - intros [r [Hr [Hs E]]]. exists r. split; [assumption|].
      apply filter_In. split; [assumption | now apply State_eqb_spec]. }
  split.
  - intros s n Hin. apply (Permutation_in _ HP) in Hin.
    rewrite HG in Hin. apply in_map_iff in Hin. destruct Hin as [s' [E Hs']].
    inversion E; subst s' n. apply Hkeys in Hs'. destruct Hs' as [r [Hr Hs]].
    assert (Hx : In (order_id r) (unique Z.eqb (ids s))) by (apply Hids; now exists r).
    unfold nunique. destruct (unique Z.eqb (ids s)); [destruct Hx | simpl; lia].
  - intros Hone.
    rewrite (sum_counts_perm _ _ (Permutation_map snd HP)), HG, map_map. cbn [snd].
    unfold nunique at 1.
    change (sum_counts (map (fun s => length (unique Z.eqb (ids s))) keys))
      with (list_sum (map (fun s => length (unique Z.eqb (ids s))) keys)).
    rewrite <- length_flat_map. unfold nunique.
    apply Permutation_length, NoDup_Permutation.
    + apply NoDup_flat_map; [assumption | |].
      * intros s _. apply unique_NoDup, Z.eqb_eq.
      * intros s1 s2 x _ _ H1 H2. apply Hids in H1, H2.
        destruct H1 as [r1 [Hr1 [Hs1 Hx1]]]. destruct H2 as [r2 [Hr2 [Hs2 Hx2]]].
        rewrite <- Hs1, <- Hs2. apply Hone; congruence.
    + apply unique_NoDup, Z.eqb_eq.
    + intro x. rewrite in_flat_map, (unique_In Z.eqb Z.eqb_eq), in_map_iff. split.
      * intros [s [_ Hx]]. apply Hids in Hx. destruct Hx as [r [Hr [_ E]]]. now exists r.
      * intros [r [E Hr]]. exists (state r). split.
        -- apply Hkeys. now exists r.
        -- apply Hids. now exists r.
Qed.

Lemma funnel_counts_orders_witness :
  sorts stable_sort /\ one_state_per_order two_day_facts /\
  sum_counts (map snd (funnel_df stable_sort two_day_facts)) =
    nunique Z.eqb (map order_id two_day_facts).
Proof.
  assert (H : one_state_per_order two_day_facts).
  { intros r1 r2 [<-|[<-|[]]] [<-|[<-|[]]]; simpl; intros E;
      first [reflexivity | discriminate]. }
  split; [exact stable_sort_sorts|]. split; [exact H|].
  exact (proj2 (funnel_counts_orders stable_sort stable_sort_sorts two_day_facts) H).
Defined.

(** ** Detail table *)

(** X17. The detail table shows the filtered rows and nothing else: it
    is a rearrangement of the filtered frame, each row as often as it
    occurs there, with the latest order dates first. *)
Theorem detail_table_newest_first (sort : sorter) (sort_ok : sorts sort)
    (fdf : DataFrame) :
  Permutation (detail_table sort fdf) fdf /\
  StronglySorted (fun a b => (order_date b <= order_date a)%Z) (detail_table sort fdf).
Proof.
  unfold detail_table.
  destruct (sort_ok _ (fun a b : OrderLineFact => (order_date a <=? order_date b)%Z)
                    (rev fdf)) as [HP HS].
  split.
  - rewrite <- Permutation_rev, HP. symmetry. apply Permutation_rev.
  - apply StronglySorted_rev with (R := fun a b => (order_date a <= order_date b)%Z).
    assert (H : StronglySorted
                  (fun a b : OrderLineFact => (order_date a <=? order_date b)%Z = true)
                  (sort OrderLineFact
                        (fun a b => (order_date a <=? order_date b)%Z) (rev fdf))).
    { apply HS; [intros x y; apply Zleb_total | intros x y z; apply Zleb_trans]. }
    clear -H. induction H as [|x l Hl IH Hx]; constructor; [assumption|].
    eapply Forall_impl; [|exact Hx]. intros a Ha. now apply Z.leb_le.
Qed.

Lemma detail_table_newest_first_witness :
  sorts stable_sort /\
  detail_table stable_sort two_day_facts = rev two_day_facts /\
  Permutation (detail_table stable_sort two_day_facts) two_day_facts.
Proof.
  split; [exact stable_sort_sorts|]. split; [reflexivity|].
  exact (proj1 (detail_table_newest_first stable_sort stable_sort_sorts two_day_facts)).
Defined.

(** ** Export, further *)

Lemma state_name_injective (s t : State) : state_name s = state_name t -> s = t.
Proof. destruct s, t; simpl; intros H; first [reflexivity | discriminate]. Qed.

(** X18. The exported text determines the text columns.  Two frames with
    the same export have the same number of rows and agree, row by row,
    on order number, state, customer and product, and on every cell as
    it is printed. *)
Theorem to_csv_determines_text (F : Formatter) (a b : DataFrame) :
  to_csv F a = to_csv F b ->
  map (cells F) a = map (cells F) b /\
  length a = length b /\
  map order_number a = map order_number b /\
  map state a = map state b /\
  map customer a = map customer b /\
  map product a = map product b.
Proof.
  intros E.
  assert (Hc : map (cells F) a = map (cells F) b).
  { pose proof (to_csv_cells F a) as Ha. rewrite E, to_csv_cells in Ha.
    now injection Ha as <-. }
  split; [exact Hc|].
  split; [rewrite <- (length_map (cells F) a), Hc; apply length_map|].
  assert (Hcol : forall (g : OrderLineFact -> string) (i : nat),
             (forall r, nth i (cells F r) EmptyString = g r) -> map g a = map g b).
  { intros g i Hg.
    rewrite <- (map_ext _ _ Hg a), <- (map_ext _ _ Hg b).
    rewrite <- !(map_map (cells F) (fun c => nth i c EmptyString)). now rewrite Hc. }
  split; [apply (Hcol order_number 1%nat); reflexivity|].
  split.
  { assert (Hs : map (fun r => state_name (state r)) a
                 = map (fun r => state_name (state r)) b)
      by (apply (Hcol _ 3%nat); reflexivity).
    clear -Hs. revert b Hs. induction a as [|x a IH]; intros [|y b] Hs;
      simpl in *; try discriminate; [reflexivity|].
    injection Hs as H1 H2. f_equal; [now apply state_name_injective | now apply IH]. }
  split; [apply (Hcol customer 4%nat); reflexivity|].
  apply (Hcol product 8%nat); reflexivity.
Qed.

Lemma to_csv_determines_text_witness :
  to_csv (mkFormatter (fun _ => EmptyString) (fun _ => EmptyString) (fun _ => EmptyString))
         two_day_facts
  = to_csv (mkFormatter (fun _ => EmptyString) (fun _ => EmptyString) (fun _ => EmptyString))
           [fact 7 "S00001" 300 sale "B" 1; fact 8 "S00002" 301 draft "A" 2] /\
  map customer two_day_facts
  = map customer [fact 7 "S00001" 300 sale "B" 1; fact 8 "S00002" 301 draft "A" 2].
Proof.
  assert (H : to_csv (mkFormatter (fun _ => EmptyString) (fun _ => EmptyString)
                                  (fun _ => EmptyString)) two_day_facts
              = to_csv (mkFormatter (fun _ => EmptyString) (fun _ => EmptyString)
                                    (fun _ => EmptyString))
                       [fact 7 "S00001" 300 sale "B" 1; fact 8 "S00002" 301 draft "A" 2])
    by reflexivity.
  split; [exact H|].
  exact (proj1 (proj2 (proj2 (proj2 (proj2 (to_csv_determines_text _ _ _ H)))))).
Defined.

(** ** Rolling average *)







(** ** Daily series *)

(** X20. The daily series is in calendar order: it has one entry for
    each order date of the frame, the dates strictly ascending, and each
    entry holds the total of the rows of its date. *)
Theorem daily_sales_in_date_order (fdf : DataFrame) :
  StronglySorted Z.lt (map fst (daily_sales fdf)) /\
  (forall d, In d (map fst (daily_sales fdf)) <-> exists r, In r fdf /\ order_date r = d) /\
  (forall d v, In (d, v) (daily_sales fdf) ->
     v = total_sales (filter (fun r => (order_date r =? d)%Z) fdf)).
Proof.
  unfold daily_sales. split; [|split].
  - apply sorted_NoDup_strict.
    + rewrite groupby_keys.
      apply insertion_sort_sorted; [apply Zleb_total | apply Zleb_trans].
    + apply groupby_keys_NoDup, Z.eqb_eq.
  - intro d. apply groupby_keys_In, Z.eqb_eq.
  - intros d v H. now apply groupby_entry in H.
Qed.
